(** * Shared-datastore resolution of the vSphere CSI driver

    A shallow embedding of [pkg/csi/service/cns/nodes.go]: the membership
    callbacks [nodeAdd] / [nodeDelete], the datastore intersection
    [GetSharedDatastoresForVMs] and the topology resolver
    [GetSharedDatastoresInTopology], followed by the properties proved
    about them.

    Conventions of the embedding.
    - A Go slice is a [list]; the nil slice and the empty slice are both
      [[]] (the code only takes [len], ranges and appends).  Where the
      code tests a slice or a pointer against [nil] it is an [option].
    - A Go map is a [gmap]; reading an absent key gives the zero value.
    - A Go function returning [(v, err)] returns the pair
      [(v, err)] with [err : option error]; [None] is the nil error.
    - The collaborators (node manager, virtual machine accessor, klog)
      act on an abstract [World] that is threaded through every call;
      klog output is collected separately, in call order. *)

From stdpp Require Import gmap strings list fin_maps.

Open Scope string_scope.
Open Scope list_scope.

(** ** Data model *)

(** Type declarations that live outside this package; only the fields
    read by nodes.go are kept. *)
Module types.
(** govmomi's [types.DatastoreInfo]. *)
Record DatastoreInfo := { Url : string }.
End types.

Module v1.
Record NodeSpec := { ProviderID : string }.
Record Node := { Name : string; Spec : NodeSpec }.
End v1.

(** [cnsvsphere.DatastoreInfo]: a datastore handle together with its
    info.  Two values with the same [Url] may differ in [Datastore]. *)
Record DatastoreInfo := { Datastore : string; Info : types.DatastoreInfo }.

Module csi.
Record Topology := { Segments : gmap string string }.

(** Generated getter, safe on the nil pointer. *)
Definition GetSegments (t : option Topology) : gmap string string :=
  match t with
  | Some t => Segments t
  | None => ∅
  end.

Record TopologyRequirement := {
  Requisite : option (list (option Topology));
  Preferred : option (list (option Topology))
}.

Definition GetRequisite (r : option TopologyRequirement)
  : option (list (option Topology)) :=
  match r with
  | Some r => Requisite r
  | None => None
  end.

Definition GetPreferred (r : option TopologyRequirement)
  : option (list (option Topology)) :=
  match r with
  | Some r => Preferred r
  | None => None
  end.
End csi.

(** The value of an [interface{}] handed to an informer callback. *)
Inductive interface :=
| NilInterface
| NodePointer (p : option v1.Node)
| OtherObject (dynamicType : string).

(** The type assertion of [obj] to a node pointer, in its two-result
    form. *)
Definition assert_Node (obj : interface) : option v1.Node * bool :=
  match obj with
  | NodePointer p => (p, true)
  | NilInterface | OtherObject _ => (None, false)
  end.

(** Go errors.  [CollaboratorError] stands for whatever a collaborator
    returns; the other two are built by nodes.go with [fmt.Errorf]. *)
Inductive error (VirtualMachine : Type) :=
| CollaboratorError (msg : string)
| EmptyNodeVMsError
| NoSharedDatastoresError (nodeVM : VirtualMachine).
Arguments CollaboratorError {VirtualMachine} msg.
Arguments EmptyNodeVMsError {VirtualMachine}.
Arguments NoSharedDatastoresError {VirtualMachine} nodeVM.

(** Reading a slice that may be nil. *)
Definition isnil {A} (p : option A) : bool :=
  match p with
  | None => true
  | Some _ => false
  end.

Definition elems {A} (s : option (list A)) : list A := default [] s.

(** ** klog *)

(** A line of klog output: its severity ([Verbose v] for [klog.V(v)])
    and its format string; the formatted arguments are not kept. *)
Inductive severity := Verbose (v : nat) | Warning | Error.

Record LogEntry := Log { sev : severity; format : string }.

(** ** Computations: world passing, log output, panics *)

Inductive outcome (A : Type) :=
| Returned (a : A)
| Panicked.
Arguments Returned {A} a.
Arguments Panicked {A}.

Record Out (World A : Type) := mkOut {
  outcome_of : outcome A;
  world_of : World;
  logs_of : list LogEntry
}.
Arguments mkOut {World A} _ _ _.
Arguments outcome_of {World A} _.
Arguments world_of {World A} _.
Arguments logs_of {World A} _.

Definition M (World A : Type) : Type := World -> Out World A.

Section Computations.
Context {World : Type}.

Definition ret {A} (a : A) : M World A :=
  fun w => mkOut (Returned a) w [].

Definition bind {A B} (m : M World A) (k : A -> M World B) : M World B :=
  fun w =>
    let o := m w in
    match outcome_of o with
    | Returned a =>
        let o' := k a (world_of o) in
        mkOut (outcome_of o') (world_of o') (logs_of o ++ logs_of o')
    | Panicked => mkOut Panicked (world_of o) (logs_of o)
    end.

(** A call into a collaborator. *)
Definition call {A} (f : World -> A * World) : M World A :=
  fun w => let (a, w') := f w in mkOut (Returned a) w' [].

Definition klog (s : severity) (fmt : string) : M World unit :=
  fun w => mkOut (Returned tt) w [Log s fmt].

(** Selecting a field through a pointer. *)
Definition deref {A} (p : option A) : M World A :=
  match p with
  | Some a => ret a
  | None => fun w => mkOut Panicked w []
  end.

(** [m] started in [w] returns [a] and leaves the world [w']. *)
Definition returns {A} (m : M World A) (w : World) (a : A) (w' : World)
  : Prop :=
  outcome_of (m w) = Returned a ∧ world_of (m w) = w'.

(** The output of [o] with [l] logged before it. *)
Definition after_logs {A} (l : list LogEntry) (o : Out World A)
  : Out World A :=
  mkOut (outcome_of o) (world_of o) (l ++ logs_of o).
End Computations.

Notation "'do' x <- m ;; k" := (bind m (fun x => k))
  (at level 100, x pattern, m at next level, right associativity).
Notation "m ;; k" := (bind m (fun _ => k))
  (at level 100, right associativity).

(** ** Collaborator interfaces *)

Module cnsvsphere.
(** The methods of a [cnsvsphere.VirtualMachine] pointer used by
    nodes.go. *)
Class VirtualMachineAPI (World VirtualMachine : Type) := {
  GetAllAccessibleDatastores :
    VirtualMachine -> World ->
    (list DatastoreInfo * option (error VirtualMachine)) * World;
  IsInZoneRegion :
    VirtualMachine -> string -> string -> string -> string -> World ->
    (bool * option (error VirtualMachine)) * World
}.
End cnsvsphere.

Module cnsnode.
(** The [cnsnode.Manager] interface. *)
Class Manager (World VirtualMachine : Type) := {
  RegisterNode :
    string -> string -> World -> option (error VirtualMachine) * World;
  UnregisterNode :
    string -> World -> option (error VirtualMachine) * World;
  GetNodeByName :
    string -> World ->
    (option VirtualMachine * option (error VirtualMachine)) * World;
  GetAllNodes :
    World -> (list VirtualMachine * option (error VirtualMachine)) * World
}.
End cnsnode.

Module common.
(** [common.GetUUIDFromProviderID], declared in [pkg/csi/service/common]. *)
Class Helpers := { GetUUIDFromProviderID : string -> string }.
End common.

Module csitypes.
(** The label keys of [pkg/csi/types]. *)
Class Labels := {
  LabelZoneFailureDomain : string;
  LabelRegionFailureDomain : string
}.
End csitypes.

(** ** nodes.go *)

Section Nodes.
Context {World VirtualMachine : Type}.
Context `{!cnsvsphere.VirtualMachineAPI World VirtualMachine}.
Context `{!cnsnode.Manager World VirtualMachine}.

Context `{!common.Helpers} `{!csitypes.Labels}.

Abbreviation error := (error VirtualMachine).
Abbreviation M := (M World).

Definition nodeAdd (obj : interface) : M unit :=
  let '(node, ok) := assert_Node obj in
  if isnil node || negb ok then
    klog Warning "nodeAdd: unrecognized object %+v"
  else
    do n <- deref node ;;
    do err <- call (cnsnode.RegisterNode
                   (common.GetUUIDFromProviderID (v1.ProviderID (v1.Spec n)))
                   (v1.Name n)) ;;
    match err with
    | Some _ => klog Warning "Failed to register node:%q. err=%v"
    | None => ret tt
    end.

Definition nodeDelete (obj : interface) : M unit :=
  let '(node, ok) := assert_Node obj in
  if isnil node || negb ok then
    klog Warning "nodeDelete: unrecognized object %+v"
  else
    do n <- deref node ;;
    do err <- call (cnsnode.UnregisterNode (v1.Name n)) ;;
    match err with
    | Some _ => klog Warning "Failed to unregister node:%q. err=%v"
    | None => ret tt
    end.

Definition GetNodeByName (nodeName : string)
  : M (option VirtualMachine * option error) :=
  call (cnsnode.GetNodeByName nodeName).

(** *** GetSharedDatastoresForVMs *)

(** The innermost loop: scan [accessibleDatastores] for the URL of
    [sharedDs]; on the first hit append [sharedDs] and break. *)
Fixpoint scan_accessible (sharedDs : DatastoreInfo)
    (accessibleDatastores : list DatastoreInfo)
    (sharedAccessibleDatastores : list DatastoreInfo)
  : list DatastoreInfo :=
  match accessibleDatastores with
  | [] => sharedAccessibleDatastores
  | accessibleDs :: rest =>
      if String.eqb (types.Url (Info sharedDs))
                    (types.Url (Info accessibleDs))
      then sharedAccessibleDatastores ++ [sharedDs]
      else scan_accessible sharedDs rest sharedAccessibleDatastores
  end.

(** The loop over [sharedDatastores] around it. *)
Fixpoint scan_shared (sharedDatastores accessibleDatastores : list DatastoreInfo)
    (sharedAccessibleDatastores : list DatastoreInfo)
  : list DatastoreInfo :=
  match sharedDatastores with
  | [] => sharedAccessibleDatastores
  | sharedDs :: rest =>
      scan_shared rest accessibleDatastores
        (scan_accessible sharedDs accessibleDatastores
           sharedAccessibleDatastores)
  end.

(** The body of the node loop between the accessor call and the
    emptiness test: the new value of [sharedDatastores]. *)
Definition update_shared
    (sharedDatastores accessibleDatastores : list DatastoreInfo)
  : list DatastoreInfo :=
  if Nat.eqb (length sharedDatastores) 0 then accessibleDatastores
  else scan_shared sharedDatastores accessibleDatastores [].

(** The loop over [nodeVMs], started with the current value of
    [sharedDatastores]. *)
Fixpoint range_nodeVMs (nodeVMs : list VirtualMachine)
    (sharedDatastores : list DatastoreInfo)
  : M (list DatastoreInfo * option error) :=
  match nodeVMs with
  | [] => ret (sharedDatastores, None)
  | nodeVM :: rest =>
      klog (Verbose 4) "Getting accessible datastores for node %s" ;;
      do (accessibleDatastores, err) <-
          call (cnsvsphere.GetAllAccessibleDatastores nodeVM) ;;
      match err with
      | Some e => ret ([], Some e)
      | None =>
          let sharedDatastores :=
            update_shared sharedDatastores accessibleDatastores in
          if Nat.eqb (length sharedDatastores) 0 then
            ret ([], Some (NoSharedDatastoresError nodeVM))
          else range_nodeVMs rest sharedDatastores
      end
  end.

Definition GetSharedDatastoresForVMs (nodeVMs : list VirtualMachine)
  : M (list DatastoreInfo * option error) :=
  range_nodeVMs nodeVMs [].
(** *** GetSharedDatastoresInK8SCluster *)

Definition GetSharedDatastoresInK8SCluster
  : M (list DatastoreInfo * option error) :=
  do (nodeVMs, err) <- call cnsnode.GetAllNodes ;;
  match err with
  | Some e =>
      klog Error "Failed to get Nodes from nodeManager with err %+v" ;;
      ret ([], Some e)
  | None =>
      if Nat.eqb (length nodeVMs) 0 then
        klog Error "Empty List of Node VMs returned from nodeManager" ;;
        ret ([], Some EmptyNodeVMsError)
      else
        do (sharedDatastores, err) <- GetSharedDatastoresForVMs nodeVMs ;;
        match err with
        | Some e =>
            klog Error "Failed to get shared datastores for node VMs. Err: %+v" ;;
            ret ([], Some e)
        | None =>
            klog (Verbose 3) "sharedDatastores : %+v" ;;
            ret (sharedDatastores, None)
        end
  end.

(** *** GetSharedDatastoresInTopology *)

(** The closure [getNodesInZoneRegion]; the variables it captures
    ([allNodes] and the two category names) are arguments.  First its
    loop over [allNodes], started with the current value of
    [nodeVMsInZoneAndRegion]. *)
Fixpoint range_allNodes (allNodes : list VirtualMachine)
    (zoneCategoryName regionCategoryName zoneValue regionValue : string)
    (nodeVMsInZoneAndRegion : list VirtualMachine)
  : M (list VirtualMachine * option error) :=
  match allNodes with
  | [] => ret (nodeVMsInZoneAndRegion, None)
  | nodeVM :: rest =>
      do (isNodeInZoneRegion, err) <-
        call (cnsvsphere.IsInZoneRegion nodeVM zoneCategoryName
                regionCategoryName zoneValue regionValue) ;;
      match err with
      | Some e =>
          klog Error "Error checking if node VM: %v belongs to zone [%s] and region [%s]. err: %+v" ;;
          ret ([], Some e)
      | None =>
          range_allNodes rest zoneCategoryName regionCategoryName
            zoneValue regionValue
            (if isNodeInZoneRegion : bool
             then nodeVMsInZoneAndRegion ++ [nodeVM]
             else nodeVMsInZoneAndRegion)
      end
  end.

Definition getNodesInZoneRegion (allNodes : list VirtualMachine)
    (zoneCategoryName regionCategoryName zoneValue regionValue : string)
  : M (list VirtualMachine * option error) :=
  klog (Verbose 4) "getNodesInZoneRegion: called with zoneValue: %s, regionValue: %s" ;;
  range_allNodes allNodes zoneCategoryName regionCategoryName
    zoneValue regionValue [].

(** The segment map recorded against each datastore of one
    topology-segment-set. *)
Definition accessibleTopology (zone region : string) : gmap string string :=
  let accessibleTopology : gmap string string := ∅ in
  let accessibleTopology :=
    if negb (String.eqb zone "")
    then <[csitypes.LabelZoneFailureDomain := zone]> accessibleTopology
    else accessibleTopology in
  let accessibleTopology :=
    if negb (String.eqb region "")
    then <[csitypes.LabelRegionFailureDomain := region]> accessibleTopology
    else accessibleTopology in
  accessibleTopology.

(** The loop over [sharedDatastoresInZoneRegion] that fills
    [datastoreTopologyMap]. *)
Fixpoint range_sharedDatastoresInZoneRegion
    (sharedDatastoresInZoneRegion : list DatastoreInfo)
    (zone region : string)
    (datastoreTopologyMap : gmap string (list (gmap string string)))
  : gmap string (list (gmap string string)) :=
  match sharedDatastoresInZoneRegion with
  | [] => datastoreTopologyMap
  | datastore :: rest =>
      range_sharedDatastoresInZoneRegion rest zone region
        (<[types.Url (Info datastore) :=
             default [] (datastoreTopologyMap !! types.Url (Info datastore))
             ++ [accessibleTopology zone region]]> datastoreTopologyMap)
  end.

(** The closure [getSharedDatastoresInTopology]: first its loop over
    [topologyArr], started with the current values of
    [sharedDatastores] and [datastoreTopologyMap]. *)
Fixpoint range_topologyArr (allNodes : list VirtualMachine)
    (zoneCategoryName regionCategoryName : string)
    (topologyArr : list (option csi.Topology))
    (sharedDatastores : list DatastoreInfo)
    (datastoreTopologyMap : gmap string (list (gmap string string)))
  : M (list DatastoreInfo * gmap string (list (gmap string string))
       * option error) :=
  match topologyArr with
  | [] => ret (sharedDatastores, datastoreTopologyMap, None)
  | topology :: rest =>
      let segments := csi.GetSegments topology in
      let zone := default "" (segments !! csitypes.LabelZoneFailureDomain) in
      let region :=
        default "" (segments !! csitypes.LabelRegionFailureDomain) in
      klog (Verbose 4) "Getting list of nodeVMs for zone [%s] and region [%s]" ;;
      do (nodeVMsInZoneRegion, err) <-
        getNodesInZoneRegion allNodes zoneCategoryName regionCategoryName
          zone region ;;
      match err with
      | Some e =>
          klog Error "Failed to find Nodes in the zone: [%s] and region: [%s]. Error: %+v" ;;
          ret ([], ∅, Some e)
      | None =>
          klog (Verbose 4) "Obtained list of nodeVMs [%+v] for zone [%s] and region [%s]" ;;
          do (sharedDatastoresInZoneRegion, err) <-
            GetSharedDatastoresForVMs nodeVMsInZoneRegion ;;
          match err with
          | Some e =>
              klog Error "Failed to get shared datastores for nodes: %+v in zone [%s] and region [%s]. Error: %+v" ;;
              ret ([], ∅, Some e)
          | None =>
              klog (Verbose 4) "Obtained shared datastores : %+v for topology: %+v" ;;
              range_topologyArr allNodes zoneCategoryName regionCategoryName
                rest
                (sharedDatastores ++ sharedDatastoresInZoneRegion)
                (range_sharedDatastoresInZoneRegion
                   sharedDatastoresInZoneRegion zone region
                   datastoreTopologyMap)
          end
      end
  end.

Definition getSharedDatastoresInTopology (allNodes : list VirtualMachine)
    (zoneCategoryName regionCategoryName : string)
    (topologyArr : list (option csi.Topology))
  : M (list DatastoreInfo * gmap string (list (gmap string string))
       * option error) :=
  klog (Verbose 4) "getSharedDatastoresInTopology: called with topologyArr: %+v" ;;
  range_topologyArr allNodes zoneCategoryName regionCategoryName
    topologyArr [] ∅.

(** The second [if] of [GetSharedDatastoresInTopology] and the final
    return, entered with the current values of [sharedDatastores] and
    [datastoreTopologyMap]. *)
Definition requisite_pass (allNodes : list VirtualMachine)
    (topologyRequirement : option csi.TopologyRequirement)
    (zoneCategoryName regionCategoryName : string)
    (sharedDatastores : list DatastoreInfo)
    (datastoreTopologyMap : gmap string (list (gmap string string)))
  : M (list DatastoreInfo * gmap string (list (gmap string string))
       * option error) :=
  if Nat.eqb (length sharedDatastores) 0
     && negb (isnil topologyRequirement)
     && negb (isnil (csi.GetRequisite topologyRequirement))
  then
    klog (Verbose 3) "Using requisite topology" ;;
    do (sharedDatastores, datastoreTopologyMap, err) <-
      getSharedDatastoresInTopology allNodes zoneCategoryName
        regionCategoryName (elems (csi.GetRequisite topologyRequirement)) ;;
    match err with
    | Some e =>
        klog Error "Error occurred  while finding shared datastores from requisite topology: %+v" ;;
        ret ([], ∅, Some e)
    | None => ret (sharedDatastores, datastoreTopologyMap, None)
    end
  else ret (sharedDatastores, datastoreTopologyMap, None).

Definition GetSharedDatastoresInTopology
    (topologyRequirement : option csi.TopologyRequirement)
    (zoneCategoryName regionCategoryName : string)
  : M (list DatastoreInfo * gmap string (list (gmap string string))
       * option error) :=
  klog (Verbose 4) "GetSharedDatastoresInTopology: called with topologyRequirement: %+v, zoneCategoryName: %s, regionCategoryName: %s" ;;
  do (allNodes, err) <- call cnsnode.GetAllNodes ;;
  match err with
  | Some e =>
      klog Error "Failed to get Nodes from nodeManager with err %+v" ;;
      ret ([], ∅, Some e)
  | None =>
      if Nat.eqb (length allNodes) 0 then
        klog Error "Empty List of Node VMs returned from nodeManager" ;;
        ret ([], ∅, Some EmptyNodeVMsError)
      else
        if negb (isnil topologyRequirement)
           && negb (isnil (csi.GetPreferred topologyRequirement))
        then
          klog (Verbose 3) "Using preferred topology" ;;
          do (sharedDatastores, datastoreTopologyMap, err) <-
            getSharedDatastoresInTopology allNodes zoneCategoryName
              regionCategoryName
              (elems (csi.GetPreferred topologyRequirement)) ;;
          match err with
          | Some e =>
              klog Error "Error occurred  while finding shared datastores from preferred topology: %+v" ;;
              ret ([], ∅, Some e)
          | None =>
              requisite_pass allNodes topologyRequirement zoneCategoryName
                regionCategoryName sharedDatastores datastoreTopologyMap
          end
        else
          requisite_pass allNodes topologyRequirement zoneCategoryName
            regionCategoryName [] ∅
  end.
End Nodes.

(** ** Vocabulary of the statements *)

(** The URLs of a datastore sequence, in order. *)
Definition urls (l : list DatastoreInfo) : list string :=
  map (fun d => types.Url (Info d)) l.

(** [sharedDs] has the URL of some element of [accessibleDatastores]. *)
Definition url_in (accessibleDatastores : list DatastoreInfo)
    (sharedDs : DatastoreInfo) : bool :=
  existsb (fun accessibleDs =>
             String.eqb (types.Url (Info sharedDs))
                        (types.Url (Info accessibleDs)))
          accessibleDatastores.

(** The URL sequences the accessor reports when it is called for
    [nodeVMs] in order, starting in world [w]; [None] where the call
    fails.  Used to state what a run of the node loop was told. *)
Fixpoint accessible_urls {World VirtualMachine : Type}
    `{!cnsvsphere.VirtualMachineAPI World VirtualMachine}
    (nodeVMs : list VirtualMachine) (w : World)
  : list (option (list string)) :=
  match nodeVMs with
  | [] => []
  | nodeVM :: rest =>
      let '((accessibleDatastores, err), w') :=
        cnsvsphere.GetAllAccessibleDatastores nodeVM w in
      match err with
      | Some _ => None
      | None => Some (urls accessibleDatastores)
      end :: accessible_urls rest w'
  end.

(** The zone and region values the loop over [topologyArr] reads from a
    topology-segment-set. *)
Definition zone_of `{!csitypes.Labels} (topology : option csi.Topology)
  : string :=
  default "" (csi.GetSegments topology !! csitypes.LabelZoneFailureDomain).

Definition region_of `{!csitypes.Labels} (topology : option csi.Topology)
  : string :=
  default "" (csi.GetSegments topology !! csitypes.LabelRegionFailureDomain).

(** ** A small cluster to run the code on

    Virtual machines are named by strings; the world is the registry of
    the node manager together with a journal of every collaborator call,
    latest last. *)
Module Fixture.

Inductive Call :=
| CallRegisterNode (uuid name : string)
| CallUnregisterNode (name : string)
| CallGetNodeByName (name : string)
| CallGetAllNodes
| CallGetAllAccessibleDatastores (vm : string)
| CallIsInZoneRegion (vm zoneValue regionValue : string).

Record World := { registry : list string; journal : list Call }.

Definition record (c : Call) (w : World) : World :=
  {| registry := registry w; journal := journal w ++ [c] |}.

Definition ds (handle url : string) : DatastoreInfo :=
  {| Datastore := handle; Info := {| types.Url := url |} |}.

Definition lookup_string {A} (k : string) (table : list (string * A))
  : option A :=
  snd <$> List.find (fun p => String.eqb (fst p) k) table.

(** What each virtual machine can reach. *)
Definition accessible : list (string * list DatastoreInfo) :=
  [ ("node1", [ds "n1-A" "ds:///A/"; ds "n1-B" "ds:///B/"]);
    ("node2", [ds "n2-A" "ds:///A/"; ds "n2-C" "ds:///C/"]);
    ("node3", [ds "n3-A" "ds:///A/"; ds "n3-D" "ds:///D/"]);
    ("node4", [ds "n4-E" "ds:///E/"]);
    ("node5", [ds "n5-A" "ds:///A/"; ds "n5-B" "ds:///B/"]);
    ("node6", []);
    ("east1", [ds "e1-X" "ds:///X/"; ds "e1-Y" "ds:///Y/"]);
    ("west1", [ds "w1-Y" "ds:///Y/"; ds "w1-Z" "ds:///Z/"]) ].

(** Where each virtual machine lives: zone and region. *)
Definition placement : list (string * (string * string)) :=
  [ ("node1", ("us-east", "us")); ("node2", ("us-east", "us"));
    ("node3", ("us-west", "us")); ("node4", ("us-west", "us"));
    ("node5", ("us-east", "us")); ("node6", ("us-east", "us"));
    ("east1", ("zone-a", "eu")); ("west1", ("zone-b", "eu")) ].

#[export] Instance vm_api : cnsvsphere.VirtualMachineAPI World string := {|
  cnsvsphere.GetAllAccessibleDatastores vm w :=
    (match lookup_string vm accessible with
     | Some l => (l, None)
     | None => ([], Some (CollaboratorError "vm not found"))
     end, record (CallGetAllAccessibleDatastores vm) w);
  cnsvsphere.IsInZoneRegion vm _ _ zoneValue regionValue w :=
    (match lookup_string vm placement with
     | Some (zone, region) =>
         ((String.eqb zoneValue "" || String.eqb zoneValue zone)
          && (String.eqb regionValue "" || String.eqb regionValue region),
          None)
     | None => (false, Some (CollaboratorError "vm not found"))
     end, record (CallIsInZoneRegion vm zoneValue regionValue) w)
|}.

Definition mem_string (k : string) (l : list string) : bool :=
  existsb (String.eqb k) l.

#[export] Instance manager : cnsnode.Manager World string := {|
  cnsnode.RegisterNode uuid name w :=
    if String.eqb uuid "" then
      (Some (CollaboratorError "vm not found"),
       record (CallRegisterNode uuid name) w)
    else
      (None,
       {| registry :=
            if mem_string name (registry w) then registry w
            else registry w ++ [name];
          journal := journal w ++ [CallRegisterNode uuid name] |});
  cnsnode.UnregisterNode name w :=
    if mem_string name (registry w) then
      (None,
       {| registry :=
            List.filter (fun n => negb (String.eqb n name)) (registry w);
          journal := journal w ++ [CallUnregisterNode name] |})
    else
      (Some (CollaboratorError "node not found"),
       record (CallUnregisterNode name) w);
  cnsnode.GetNodeByName name w :=
    (if mem_string name (registry w) then (Some name, None)
     else (None, Some (CollaboratorError "node not found")),
     record (CallGetNodeByName name) w);
  cnsnode.GetAllNodes w := ((registry w, None), record CallGetAllNodes w)
|}.

#[export] Instance helpers : common.Helpers := {|
  common.GetUUIDFromProviderID providerID :=
    String.substring 10 (String.length providerID - 10) providerID
|}.

#[export] Instance labels : csitypes.Labels := {|
  csitypes.LabelZoneFailureDomain := "failure-domain.beta.kubernetes.io/zone";
  csitypes.LabelRegionFailureDomain :=
    "failure-domain.beta.kubernetes.io/region"
|}.

Definition cluster (names : list string) : World :=
  {| registry := names; journal := [] |}.

Definition in_zone (zone : string) : option csi.Topology :=
  Some {| csi.Segments := {[ csitypes.LabelZoneFailureDomain := zone ]} |}.

Definition zone_segment (zone : string) : gmap string string :=
  {[ csitypes.LabelZoneFailureDomain := zone ]}.

(** The world after the calls [calls], made in this order from
    [cluster names]. *)
Definition after_calls (names : list string) (calls : list Call) : World :=
  {| registry := names; journal := calls |}.

(** Preferred: the west zone; requisite: the east zone. *)
Definition west_then_east : option csi.TopologyRequirement :=
  Some {| csi.Requisite := Some [in_zone "us-east"];
          csi.Preferred := Some [in_zone "us-west"] |}.

(** Requisite only: zone-a, then zone-b. *)
Definition zone_a_zone_b : option csi.TopologyRequirement :=
  Some {| csi.Requisite := Some [in_zone "zone-a"; in_zone "zone-b"];
          csi.Preferred := None |}.

End Fixture.

(** ** cns.go (package vsphere) *)

Module cns.
(** govmomi's [cns.NewClient], called with a vim25 client. *)
Class API (World Vim25 Cns : Type) := {
  NewClient :
    Vim25 -> World -> (option Cns * option (error Empty_set)) * World
}.
End cns.

Module vsphere.
(** [VirtualCenter] is declared in another file of the package.  What
    cns.go reads of it: the selector chains [vc.Config.Host] and
    [vc.Client.Client], read here as fields, and the pointer
    [vc.CnsClient], which it also writes.  [Other] is everything
    else. *)
Record VirtualCenter (Vim25 Cns Other : Type) := {
  Config_Host : string;
  Client_Client : Vim25;
  CnsClient : option Cns;
  other : Other
}.
Arguments Config_Host {Vim25 Cns Other} _.
Arguments Client_Client {Vim25 Cns Other} _.
Arguments CnsClient {Vim25 Cns Other} _.
Arguments other {Vim25 Cns Other} _.

(** The assignment [vc.CnsClient = c]. *)
Definition set_CnsClient {Vim25 Cns Other} (c : option Cns)
    (vc : VirtualCenter Vim25 Cns Other) : VirtualCenter Vim25 Cns Other :=
  {| Config_Host := Config_Host vc;
     Client_Client := Client_Client vc;
     CnsClient := c;
     other := other vc |}.

(** The method [Connect], declared in another file; it may rewrite the
    receiver. *)
Class Methods (World Vim25 Cns Other : Type) := {
  Connect :
    VirtualCenter Vim25 Cns Other -> World ->
    (VirtualCenter Vim25 Cns Other * option (error Empty_set)) * World
}.
End vsphere.

Section Cns.
Context {World Vim25 Cns Other : Type}.
Context `{!cns.API World Vim25 Cns}.
Context `{!vsphere.Methods World Vim25 Cns Other}.

Abbreviation VirtualCenter := (vsphere.VirtualCenter Vim25 Cns Other).
Abbreviation M := (M World).

Definition NewCNSClient (c : Vim25)
  : M (option Cns * option (error Empty_set)) :=
  do (cnsClient, err) <- call (cns.NewClient c) ;;
  match err with
  | Some e =>
      klog Error "Failed to create a new client for CNS. err: %v" ;;
      ret (None, Some e)
  | None => ret (cnsClient, None)
  end.

(** The receiver is mutated: the function returns it with the error. *)
Definition ConnectCNS (vc : VirtualCenter)
  : M (VirtualCenter * option (error Empty_set)) :=
  do (vc, err) <- call (vsphere.Connect vc) ;;
  match err with
  | Some e =>
      klog Error "Failed to connect to Virtual Center host %q with err: %v" ;;
      ret (vc, Some e)
  | None =>
      if isnil (vsphere.CnsClient vc) then
        do (cnsClient, err) <- NewCNSClient (vsphere.Client_Client vc) ;;
        let vc := vsphere.set_CnsClient cnsClient vc in
        match err with
        | Some e =>
            klog Error "Failed to create CNS client on vCenter host %q with err: %v" ;;
            ret (vc, Some e)
        | None => ret (vc, None)
        end
      else ret (vc, None)
  end.

Definition DisconnectCNS (vc : VirtualCenter) : M VirtualCenter :=
  if isnil (vsphere.CnsClient vc) then
    klog (Verbose 1) "CnsClient wasn't connected, ignoring" ;;
    ret vc
  else ret (vsphere.set_CnsClient None vc).
End Cns.

(** ** More vocabulary *)

(** Every answer of [answers] is a success that lists the URL of [d]. *)
Definition reported (answers : list (option (list string)))
    (d : DatastoreInfo) : bool :=
  forallb (fun a =>
             match a with
             | Some us => existsb (String.eqb (types.Url (Info d))) us
             | None => false
             end) answers.

(** How often the URL [u] occurs in a datastore sequence. *)
Definition occurrences (u : string) (l : list DatastoreInfo) : nat :=
  count_occ String.string_dec (urls l) u.

(** The segment lists of a topology map under the URL [u]; empty for
    an absent key, as a Go map read gives. *)
Definition segments_at (dmap : gmap string (list (gmap string string)))
    (u : string) : list (gmap string string) :=
  default [] (dmap !! u).

(** ** A small vCenter to run cns.go on

    vim25 clients are named by strings, CNS clients are numbered in
    creation order; the world counts the CNS clients created. *)
Module VCenterFixture.

Record World := { created : nat; connects : nat }.

#[export] Instance cns_api : cns.API World string nat := {|
  cns.NewClient c w :=
    if String.eqb c "" then
      ((None, Some (CollaboratorError "no vim25 client")), w)
    else
      ((Some (created w), None),
       {| created := S (created w); connects := connects w |})
|}.

#[export] Instance methods : vsphere.Methods World string nat unit := {|
  vsphere.Connect vc w :=
    if String.eqb (vsphere.Config_Host vc) "" then
      ((vc, Some (CollaboratorError "no host")), w)
    else
      ((vc, None), {| created := created w; connects := S (connects w) |})
|}.

Definition vcenter (host client : string) (c : option nat)
  : vsphere.VirtualCenter string nat unit :=
  {| vsphere.Config_Host := host;
     vsphere.Client_Client := client;
     vsphere.CnsClient := c;
     vsphere.other := tt |}.

End VCenterFixture.

(** * Properties *)

(** ** Running a computation *)

Section ComputationLemmas.
Context {World : Type}.

Lemma after_logs_nil {A} (o : Out World A) : after_logs [] o = o.
Proof. by destruct o. Qed.

Lemma after_logs_app {A} (l1 l2 : list LogEntry) (o : Out World A) :
  after_logs l1 (after_logs l2 o) = after_logs (l1 ++ l2) o.
Proof. unfold after_logs; simpl. by rewrite app_assoc. Qed.

Lemma bind_Returned {A B} (m : M World A) (k : A -> M World B) w a :
  outcome_of (m w) = Returned a ->
  bind m k w = after_logs (logs_of (m w)) (k a (world_of (m w))).
Proof. intros Hm. unfold bind. by rewrite Hm. Qed.

Lemma bind_klog {B} s fmt (k : M World B) w :
  (klog s fmt ;; k) w = after_logs [Log s fmt] (k w).
Proof. reflexivity. Qed.

Lemma bind_ret {A B} (a : A) (k : A -> M World B) w :
  bind (ret a) k w = k a w.
Proof. unfold bind, ret; simpl. by destruct (k a w). Qed.

Lemma bind_call {A B} (f : World -> A * World) (k : A -> M World B) w a w' :
  f w = (a, w') -> bind (call f) k w = k a w'.
Proof.
  intros Hf. unfold bind, call. rewrite Hf; simpl. by destruct (k a w').
Qed.

Lemma outcome_after_logs {A} l (o : Out World A) :
  outcome_of (after_logs l o) = outcome_of o.
Proof. reflexivity. Qed.

Lemma world_after_logs {A} l (o : Out World A) :
  world_of (after_logs l o) = world_of o.
Proof. reflexivity. Qed.

End ComputationLemmas.

(** ** The intersection by URL *)

Lemma scan_accessible_spec sharedDs accessibleDatastores acc :
  scan_accessible sharedDs accessibleDatastores acc
  = if url_in accessibleDatastores sharedDs then acc ++ [sharedDs] else acc.
Proof.
  induction accessibleDatastores as [|a l IH]; simpl; [done|].
  by destruct (String.eqb _ _).
Qed.

Lemma scan_shared_spec sharedDatastores accessibleDatastores acc :
  scan_shared sharedDatastores accessibleDatastores acc
  = acc ++ List.filter (url_in accessibleDatastores) sharedDatastores.
Proof.
  revert acc.
  induction sharedDatastores as [|s l IH]; intros acc; simpl.
  - by rewrite app_nil_r.
  - rewrite IH, scan_accessible_spec.
    destruct (url_in accessibleDatastores s); [|done].
    by rewrite <- app_assoc.
Qed.

Lemma filter_sublist {A} (f : A -> bool) (l : list A) :
  sublist (List.filter f l) l.
Proof.
  induction l as [|x l IH]; simpl; [constructor|].
  destruct (f x); by constructor.
Qed.

Lemma url_in_elem accessibleDatastores d :
  types.Url (Info d) ∈ urls accessibleDatastores ->
  url_in accessibleDatastores d = true.
Proof.
  unfold url_in, urls. intros Hin.
  apply list_elem_of_fmap in Hin as (a & Ha & Hin).
  apply existsb_exists. exists a. split.
  - by apply list_elem_of_In.
  - rewrite Ha. apply String.eqb_refl.
Qed.

Lemma filter_all {A} (f : A -> bool) (l : list A) :
  (forall x, x ∈ l -> f x = true) -> List.filter f l = l.
Proof.
  induction l as [|x l IH]; intros Hall; simpl; [done|].
  rewrite (Hall x) by apply list_elem_of_here.
  f_equal. apply IH. intros y Hy. apply Hall. by apply list_elem_of_further.
Qed.

Lemma update_shared_nil accessibleDatastores :
  update_shared [] accessibleDatastores = accessibleDatastores.
Proof. reflexivity. Qed.

Lemma update_shared_sublist sharedDatastores accessibleDatastores :
  sharedDatastores <> [] ->
  sublist (update_shared sharedDatastores accessibleDatastores)
          sharedDatastores.
Proof.
  intros Hne. unfold update_shared.
  destruct sharedDatastores as [|s l]; [done|]. simpl Nat.eqb. cbv iota.
  rewrite scan_shared_spec. apply filter_sublist.
Qed.

Lemma update_shared_same_urls sharedDatastores accessibleDatastores :
  urls accessibleDatastores = urls sharedDatastores ->
  sharedDatastores <> [] ->
  update_shared sharedDatastores accessibleDatastores = sharedDatastores.
Proof.
  intros Hurls Hne. unfold update_shared.
  destruct sharedDatastores as [|s l]; [done|]. simpl Nat.eqb. cbv iota.
  rewrite scan_shared_spec, app_nil_l.
  apply filter_all. intros d Hd. apply url_in_elem. rewrite Hurls.
  unfold urls. apply list_elem_of_fmap. by exists d.
Qed.

Lemma length_eqb_0 {A} (l : list A) :
  Nat.eqb (length l) 0 = true <-> l = [].
Proof. destruct l; simpl; split; congruence. Qed.

(** ** GetSharedDatastoresForVMs *)

Section IntersectionProperties.
Context {World VirtualMachine : Type}.
Context `{!cnsvsphere.VirtualMachineAPI World VirtualMachine}.

Abbreviation error := (error VirtualMachine).

(** One iteration of the node loop, after the accessor has answered. *)
Lemma range_nodeVMs_cons nodeVM rest sharedDatastores w accessible err w1 :
  cnsvsphere.GetAllAccessibleDatastores nodeVM w = ((accessible, err), w1) ->
  range_nodeVMs (nodeVM :: rest) sharedDatastores w
  = after_logs [Log (Verbose 4) "Getting accessible datastores for node %s"]
      match err with
      | Some e => mkOut (Returned ([], Some e)) w1 []
      | None =>
          if Nat.eqb (length (update_shared sharedDatastores accessible)) 0
          then mkOut (Returned ([], Some (NoSharedDatastoresError nodeVM)))
                 w1 []
          else range_nodeVMs rest (update_shared sharedDatastores accessible)
                 w1
      end.
Proof.
  intros Hacc. cbn [range_nodeVMs]. rewrite bind_klog. f_equal.
  rewrite (bind_call _ _ _ _ _ Hacc).
  destruct err; [done|]. by destruct (Nat.eqb _ _).
Qed.

(** The loop over a concatenation: the second part runs only when the
    first completes without an error, from the set it leaves. *)
Lemma range_nodeVMs_app pre post sharedDatastores w :
  range_nodeVMs (pre ++ post) sharedDatastores w
  = let o := range_nodeVMs pre sharedDatastores w in
    match outcome_of o with
    | Returned (shared, None) =>
        after_logs (logs_of o) (range_nodeVMs post shared (world_of o))
    | _ => o
    end.
Proof.
  revert sharedDatastores w.
  induction pre as [|nodeVM pre IH]; intros sharedDatastores w.
  - simpl. by rewrite after_logs_nil.
  - rewrite <- app_comm_cons.
    destruct (cnsvsphere.GetAllAccessibleDatastores nodeVM w)
      as [[accessible err] w1] eqn:Hacc.
    rewrite !(range_nodeVMs_cons _ _ _ _ _ _ _ Hacc). cbv zeta.
    destruct err as [e|]; [done|].
    destruct (Nat.eqb _ _); [done|].
    rewrite IH. cbv zeta. rewrite outcome_after_logs.
    by destruct (outcome_of _) as [[shared [e|]]|].
Qed.

(** A successful run over a non-empty running set only filters it. *)
Lemma range_nodeVMs_sublist nodeVMs sharedDatastores w ds w' :
  sharedDatastores <> [] ->
  returns (range_nodeVMs nodeVMs sharedDatastores) w (ds, None) w' ->
  ds <> [] ∧ sublist ds sharedDatastores.
Proof.
  revert sharedDatastores w.
  induction nodeVMs as [|nodeVM rest IH]; intros sharedDatastores w Hne.
  - intros [Hout _]. simpl in Hout. by simplify_eq.
  - destruct (cnsvsphere.GetAllAccessibleDatastores nodeVM w)
      as [[accessible err] w1] eqn:Hacc.
    unfold returns. rewrite (range_nodeVMs_cons _ _ _ _ _ _ _ Hacc).
    rewrite outcome_after_logs, world_after_logs.
    destruct err as [e|]; [by intros [? _]|].
    destruct (Nat.eqb _ _) eqn:Hlen; [by intros [? _]|].
    intros Hret. apply IH in Hret as [Hds Hsub].
    + split; [done|]. etrans; [exact Hsub|].
      by apply update_shared_sublist.
    + intros Hnil. rewrite Hnil in Hlen. done.
Qed.

(** If every later node reports the URLs of the running set, the loop
    returns the running set. *)
Lemma range_nodeVMs_same_urls nodeVMs D w :
  D <> [] ->
  accessible_urls nodeVMs w = replicate (length nodeVMs) (Some (urls D)) ->
  outcome_of (range_nodeVMs nodeVMs D w) = Returned (D, None).
Proof.
  intros HD. revert w.
  induction nodeVMs as [|nodeVM rest IH]; intros w; [done|].
  destruct (cnsvsphere.GetAllAccessibleDatastores nodeVM w)
    as [[accessible err] w1] eqn:Hacc.
  cbn [accessible_urls length replicate]. rewrite Hacc.
  intros Hurls. injection Hurls as Hhd Htl.
  rewrite (range_nodeVMs_cons _ _ _ _ _ _ _ Hacc), outcome_after_logs.
  destruct err as [e|]; [done|]. injection Hhd as Hhd.
  rewrite (update_shared_same_urls D accessible Hhd HD).
  destruct (Nat.eqb _ _) eqn:Hlen.
  - apply length_eqb_0 in Hlen. done.
  - by apply IH.
Qed.

(** C1 (as amended): on an empty node list [GetSharedDatastoresForVMs]
    calls no collaborator, logs nothing and returns the empty datastore
    sequence with a nil error; the error for an empty node list is
    raised by the caller that read the registry:
    [GetSharedDatastoresInK8SCluster] returns the empty-node-list error,
    after one error line in the log, when [GetAllNodes] reports zero
    nodes. *)
Theorem GetSharedDatastoresForVMs_nil `{!cnsnode.Manager World VirtualMachine}
    (w : World) :
  GetSharedDatastoresForVMs [] w = mkOut (Returned ([], None)) w []
  ∧ (forall w1,
       cnsnode.GetAllNodes w = (([], None), w1) ->
       GetSharedDatastoresInK8SCluster w
       = mkOut (Returned ([], Some EmptyNodeVMsError)) w1
           [Log Error "Empty List of Node VMs returned from nodeManager"]).
Proof.
  split; [reflexivity|].
  intros w1 Hall. unfold GetSharedDatastoresInK8SCluster.
  by rewrite (bind_call _ _ _ _ _ Hall).
Qed.

(** C2: if the nodes of [pre] have been processed without an error,
    leaving the running set [shared], and the accessor then answers
    [accessible] for [nodeVM] such that the updated running set is
    empty, then [GetSharedDatastoresForVMs] returns no datastores and
    the error naming [nodeVM]; the world is the one left by that accessor
    call, and the whole output does not depend on the nodes [post] that
    follow. *)
Theorem GetSharedDatastoresForVMs_short_circuit
    (pre post : list VirtualMachine) (nodeVM : VirtualMachine)
    (shared accessible : list DatastoreInfo) (w w1 w2 : World) :
  returns (GetSharedDatastoresForVMs pre) w (shared, None) w1 ->
  cnsvsphere.GetAllAccessibleDatastores nodeVM w1 = ((accessible, None), w2) ->
  update_shared shared accessible = [] ->
  returns (GetSharedDatastoresForVMs (pre ++ nodeVM :: post)) w
    ([], Some (NoSharedDatastoresError nodeVM)) w2
  ∧ GetSharedDatastoresForVMs (pre ++ nodeVM :: post) w
    = GetSharedDatastoresForVMs (pre ++ [nodeVM]) w.
Proof.
  intros [Hpre Hw1] Hacc Hempty.
  unfold returns, GetSharedDatastoresForVMs in *.
  rewrite !range_nodeVMs_app. cbv zeta. rewrite Hpre, Hw1.
  rewrite !(range_nodeVMs_cons _ _ _ _ _ _ _ Hacc), Hempty. simpl Nat.eqb.
  cbv iota. by split.
Qed.

(** C3: if the first node's accessor call returns the non-empty
    sequence [D] and the call for every later node succeeds with the
    same URL sequence, [GetSharedDatastoresForVMs] returns exactly [D],
    the elements and the order reported for the first node, with a nil
    error. *)
Theorem GetSharedDatastoresForVMs_identical
    (nodeVM : VirtualMachine) (rest : list VirtualMachine)
    (D : list DatastoreInfo) (w w1 : World) :
  cnsvsphere.GetAllAccessibleDatastores nodeVM w = ((D, None), w1) ->
  D <> [] ->
  accessible_urls rest w1 = replicate (length rest) (Some (urls D)) ->
  outcome_of (GetSharedDatastoresForVMs (nodeVM :: rest) w)
  = Returned (D, None).
Proof.
  intros Hacc HD Hurls. unfold GetSharedDatastoresForVMs.
  rewrite (range_nodeVMs_cons _ _ _ _ _ _ _ Hacc), outcome_after_logs.
  rewrite update_shared_nil.
  destruct (Nat.eqb _ _) eqn:Hlen.
  - apply length_eqb_0 in Hlen. done.
  - by apply range_nodeVMs_same_urls.
Qed.

(** C10: when [GetSharedDatastoresForVMs] succeeds on a non-empty node
    list, the accessor call for the first node succeeded with some
    sequence [accessible], and the returned sequence is non-empty and a
    subsequence of [accessible]: its elements are elements fetched for
    the first node, in the order of that list. *)
Theorem GetSharedDatastoresForVMs_sublist_first
    (nodeVM : VirtualMachine) (rest : list VirtualMachine)
    (ds : list DatastoreInfo) (w w' : World) :
  returns (GetSharedDatastoresForVMs (nodeVM :: rest)) w (ds, None) w' ->
  exists accessible w1,
    cnsvsphere.GetAllAccessibleDatastores nodeVM w = ((accessible, None), w1)
    ∧ ds <> [] ∧ sublist ds accessible.
Proof.
  unfold GetSharedDatastoresForVMs, returns.
  destruct (cnsvsphere.GetAllAccessibleDatastores nodeVM w)
    as [[accessible err] w1] eqn:Hacc.
  rewrite (range_nodeVMs_cons _ _ _ _ _ _ _ Hacc).
  rewrite outcome_after_logs, world_after_logs, update_shared_nil.
  destruct err as [e|]; [by intros [? _]|].
  destruct (Nat.eqb _ _) eqn:Hlen; [by intros [? _]|].
  intros Hret. exists accessible, w1. split; [done|].
  eapply range_nodeVMs_sublist; [|exact Hret].
  intros Hnil. by rewrite Hnil in Hlen.
Qed.

End IntersectionProperties.

(** ** GetSharedDatastoresInTopology *)

Section TopologyProperties.
Context {World VirtualMachine : Type}.
Context `{!cnsvsphere.VirtualMachineAPI World VirtualMachine}.
Context `{!cnsnode.Manager World VirtualMachine}.
Context `{!csitypes.Labels}.

Lemma nonempty_length {A} (l : list A) :
  l <> [] -> Nat.eqb (length l) 0 = false.
Proof. by destruct l. Qed.

(** One iteration of the loop over [topologyArr] in which both the
    partitioning and the intersection succeed. *)
Lemma range_topologyArr_cons allNodes zc rc topology rest shared dmap
    w nodeVMs w1 ds w2 :
  returns (getNodesInZoneRegion allNodes zc rc
             (zone_of topology) (region_of topology)) w (nodeVMs, None) w1 ->
  returns (GetSharedDatastoresForVMs nodeVMs) w1 (ds, None) w2 ->
  exists l,
    range_topologyArr allNodes zc rc (topology :: rest) shared dmap w
    = after_logs l
        (range_topologyArr allNodes zc rc rest (shared ++ ds)
           (range_sharedDatastoresInZoneRegion ds
              (zone_of topology) (region_of topology) dmap) w2).
Proof.
  intros [Hnodes Hw1] [Hds Hw2]. eexists.
  cbn [range_topologyArr]. cbv zeta. fold (zone_of topology).
  fold (region_of topology). rewrite bind_klog.
  rewrite (bind_Returned _ _ _ _ Hnodes), Hw1. cbv beta iota.
  rewrite bind_klog.
  rewrite (bind_Returned _ _ _ _ Hds), Hw2. cbv beta iota.
  rewrite bind_klog. rewrite !after_logs_app. reflexivity.
Qed.

(** The whole call when only the requisite list is evaluated. *)
Lemma GetSharedDatastoresInTopology_requisite req requisite allNodes zc rc
    ds dmap w w1 w2 :
  cnsnode.GetAllNodes w = ((allNodes, None), w1) ->
  allNodes <> [] ->
  csi.GetPreferred req = None ->
  csi.GetRequisite req = Some requisite ->
  returns (getSharedDatastoresInTopology allNodes zc rc requisite) w1
    (ds, dmap, None) w2 ->
  returns (GetSharedDatastoresInTopology req zc rc) w (ds, dmap, None) w2.
Proof.
  intros Hall Hne Hpref Hreq [Hout Hw2]. unfold returns.
  unfold GetSharedDatastoresInTopology. rewrite bind_klog.
  rewrite (bind_call _ _ _ _ _ Hall), (nonempty_length _ Hne), Hpref.
  simpl isnil. rewrite andb_false_r. unfold requisite_pass.
  rewrite Hreq. destruct req as [r|]; [|done]. simpl.
  rewrite (bind_Returned _ _ _ _ Hout), Hw2. done.
Qed.

(** C4: when a preferred list is supplied and its pass returns at least
    one datastore, [GetSharedDatastoresInTopology] returns exactly what
    that pass returned, whatever the requisite list is; the world it
    leaves is the one left by the preferred pass, and its log is the
    entry line, the line announcing the preferred topology and the lines
    of the preferred pass: nothing is evaluated for the requisite list. *)
Theorem GetSharedDatastoresInTopology_preferred_first
    (req : option csi.TopologyRequirement)
    (preferred : list (option csi.Topology))
    (allNodes : list VirtualMachine) (zc rc : string)
    (ds : list DatastoreInfo) (dmap : gmap string (list (gmap string string)))
    (w w1 w2 : World) :
  cnsnode.GetAllNodes w = ((allNodes, None), w1) ->
  allNodes <> [] ->
  csi.GetPreferred req = Some preferred ->
  returns (getSharedDatastoresInTopology allNodes zc rc preferred) w1
    (ds, dmap, None) w2 ->
  ds <> [] ->
  GetSharedDatastoresInTopology req zc rc w
  = mkOut (Returned (ds, dmap, None)) w2
      ([Log (Verbose 4) "GetSharedDatastoresInTopology: called with topologyRequirement: %+v, zoneCategoryName: %s, regionCategoryName: %s";
        Log (Verbose 3) "Using preferred topology"]
       ++ logs_of (getSharedDatastoresInTopology allNodes zc rc preferred w1)).
Proof.
  intros Hall Hne Hpref [Hout Hw2] Hds.
  unfold GetSharedDatastoresInTopology. rewrite bind_klog.
  rewrite (bind_call _ _ _ _ _ Hall), (nonempty_length _ Hne), Hpref.
  destruct req as [r|]; [|done]. cbn [isnil negb andb elems default].
  rewrite bind_klog, (bind_Returned _ _ _ _ Hout), Hw2.
  cbv beta iota. unfold requisite_pass.
  rewrite (nonempty_length _ Hds). simpl andb. cbv iota.
  unfold after_logs, ret; simpl. by rewrite app_nil_r.
Qed.

(** C5: with no preferred list and the requisite list [[A; B]], where
    the nodes of [A] share [[x; y]] and the nodes of [B] share [[y'; z]]
    with [y'] a datastore of the URL of [y], the call returns the
    sequence [[x; y; y'; z]], nothing merged, and a topology map in
    which the URL of [y] is mapped to the segment map of [A] followed by
    the segment map of [B]. *)
Theorem GetSharedDatastoresInTopology_two_requisite_sets
    (A B : option csi.Topology) (allNodes nodesA nodesB : list VirtualMachine)
    (zc rc : string) (x y y' z : DatastoreInfo) (w w1 w2 w3 w4 w5 : World) :
  cnsnode.GetAllNodes w = ((allNodes, None), w1) ->
  allNodes <> [] ->
  returns (getNodesInZoneRegion allNodes zc rc (zone_of A) (region_of A))
    w1 (nodesA, None) w2 ->
  returns (GetSharedDatastoresForVMs nodesA) w2 ([x; y], None) w3 ->
  returns (getNodesInZoneRegion allNodes zc rc (zone_of B) (region_of B))
    w3 (nodesB, None) w4 ->
  returns (GetSharedDatastoresForVMs nodesB) w4 ([y'; z], None) w5 ->
  types.Url (Info y') = types.Url (Info y) ->
  types.Url (Info x) <> types.Url (Info y) ->
  types.Url (Info z) <> types.Url (Info y) ->
  exists dmap,
    returns
      (GetSharedDatastoresInTopology
         (Some {| csi.Requisite := Some [A; B]; csi.Preferred := None |})
         zc rc)
      w ([x; y; y'; z], dmap, None) w5
    ∧ dmap !! types.Url (Info y)
      = Some [accessibleTopology (zone_of A) (region_of A);
              accessibleTopology (zone_of B) (region_of B)].
Proof.
  intros Hall Hne HnA HdA HnB HdB Hy' Hx Hz.
  destruct (range_topologyArr_cons allNodes zc rc A [B] [] ∅ _ _ _ _ _ HnA HdA)
    as [lA HA].
  destruct (range_topologyArr_cons allNodes zc rc B [] ([] ++ [x; y])
              (range_sharedDatastoresInZoneRegion [x; y]
                 (zone_of A) (region_of A) ∅) _ _ _ _ _ HnB HdB)
    as [lB HB].
  eexists. split.
  - eapply GetSharedDatastoresInTopology_requisite; [done..|].
    unfold returns, getSharedDatastoresInTopology.
    rewrite bind_klog, HA, HB. simpl. done.
  - simpl. rewrite Hy'.
    rewrite lookup_insert_ne by done.
    rewrite !lookup_insert_eq. simpl default.
    rewrite lookup_insert_ne by done.
    by rewrite lookup_empty.
Qed.

(** C6: when the node manager reports zero nodes,
    [GetSharedDatastoresInTopology] returns no datastores, no topology
    map and the empty-node-list error; the world is the one left by
    [GetAllNodes] and the log holds the entry line and the error line
    only, so no partitioning or intersection has been started. *)
Theorem GetSharedDatastoresInTopology_no_nodes
    (req : option csi.TopologyRequirement) (zc rc : string) (w w1 : World) :
  cnsnode.GetAllNodes w = (([], None), w1) ->
  GetSharedDatastoresInTopology req zc rc w
  = mkOut (Returned ([], ∅, Some EmptyNodeVMsError)) w1
      [Log (Verbose 4) "GetSharedDatastoresInTopology: called with topologyRequirement: %+v, zoneCategoryName: %s, regionCategoryName: %s";
       Log Error "Empty List of Node VMs returned from nodeManager"].
Proof.
  intros Hall. unfold GetSharedDatastoresInTopology.
  by rewrite bind_klog, (bind_call _ _ _ _ _ Hall).
Qed.

(** C7: when the partition of the node list for the segment-set
    [topology] is empty, the loop over the segment-sets goes on with
    the remaining sets from the same accumulated datastore sequence and
    the same topology map, in the world left by the partitioning: the
    set adds no datastore and no map entry, and raises no error. *)
Theorem range_topologyArr_empty_partition
    (allNodes : list VirtualMachine) (zc rc : string)
    (topology : option csi.Topology) (rest : list (option csi.Topology))
    (shared : list DatastoreInfo)
    (dmap : gmap string (list (gmap string string))) (w w1 : World) :
  returns (getNodesInZoneRegion allNodes zc rc
             (zone_of topology) (region_of topology)) w ([], None) w1 ->
  exists l,
    range_topologyArr allNodes zc rc (topology :: rest) shared dmap w
    = after_logs l (range_topologyArr allNodes zc rc rest shared dmap w1).
Proof.
  intros Hnodes.
  destruct (range_topologyArr_cons allNodes zc rc topology rest shared dmap
              w [] w1 [] w1 Hnodes) as [l Hl]; [done|].
  exists l. rewrite Hl. simpl. by rewrite app_nil_r.
Qed.

(** C8: with at least one node and neither a preferred nor a requisite
    list, [GetSharedDatastoresInTopology] returns the empty datastore
    sequence, the empty topology map and a nil error, having called
    nothing after [GetAllNodes]. *)
Theorem GetSharedDatastoresInTopology_no_lists
    (req : option csi.TopologyRequirement) (allNodes : list VirtualMachine)
    (zc rc : string) (w w1 : World) :
  cnsnode.GetAllNodes w = ((allNodes, None), w1) ->
  allNodes <> [] ->
  csi.GetPreferred req = None ->
  csi.GetRequisite req = None ->
  GetSharedDatastoresInTopology req zc rc w
  = mkOut (Returned ([], ∅, None)) w1
      [Log (Verbose 4) "GetSharedDatastoresInTopology: called with topologyRequirement: %+v, zoneCategoryName: %s, regionCategoryName: %s"].
Proof.
  intros Hall Hne Hpref Hreq.
  unfold GetSharedDatastoresInTopology. rewrite bind_klog.
  rewrite (bind_call _ _ _ _ _ Hall), (nonempty_length _ Hne), Hpref.
  simpl isnil. rewrite andb_false_r. unfold requisite_pass.
  rewrite Hreq. simpl isnil. rewrite andb_false_r. done.
Qed.

End TopologyProperties.

(** ** The membership callbacks *)

Section ListenerProperties.
Context {World VirtualMachine : Type}.
Context `{!cnsnode.Manager World VirtualMachine}.
Context `{!common.Helpers}.

(** C9: both callbacks return on every event object, without a panic
    and with no value handed back.  On anything but a non-nil node
    pointer the world is untouched and one warning is logged.  On a node
    the only call is [RegisterNode] (resp. [UnregisterNode]); its error,
    if any, is turned into one warning and nothing else. *)
Theorem callbacks_always_return (obj : interface) (w : World) :
  match obj with
  | NodePointer (Some node) =>
      nodeAdd obj w
      = (let '(err, w') :=
           cnsnode.RegisterNode
             (common.GetUUIDFromProviderID (v1.ProviderID (v1.Spec node)))
             (v1.Name node) w in
         mkOut (Returned tt) w'
           match err with
           | Some _ => [Log Warning "Failed to register node:%q. err=%v"]
           | None => []
           end)
      ∧ nodeDelete obj w
        = (let '(err, w') := cnsnode.UnregisterNode (v1.Name node) w in
           mkOut (Returned tt) w'
             match err with
             | Some _ => [Log Warning "Failed to unregister node:%q. err=%v"]
             | None => []
             end)
  | _ =>
      nodeAdd obj w
      = mkOut (Returned tt) w
          [Log Warning "nodeAdd: unrecognized object %+v"]
      ∧ nodeDelete obj w
        = mkOut (Returned tt) w
            [Log Warning "nodeDelete: unrecognized object %+v"]
  end.
Proof.
  destruct obj as [|[node|]|t]; try (split; reflexivity).
  unfold nodeAdd, nodeDelete. cbn [assert_Node isnil negb orb deref].
  rewrite !bind_ret. split.
  - destruct (cnsnode.RegisterNode _ _ w) as [err w'] eqn:Hreg.
    rewrite (bind_call _ _ _ _ _ Hreg). by destruct err.
  - destruct (cnsnode.UnregisterNode _ w) as [err w'] eqn:Hunreg.
    rewrite (bind_call _ _ _ _ _ Hunreg). by destruct err.
Qed.

End ListenerProperties.

(** ** The properties on the small cluster *)

Module FixtureRuns.
Import Fixture.

(** C1, counterexample: the intersection of an empty node list succeeds
    with the empty datastore sequence; it returns no error. *)
Lemma empty_node_list_succeeds :
  outcome_of (GetSharedDatastoresForVMs [] (cluster ["node1"]))
  = Returned ([], None)
  ∧ ¬ (exists ds e,
         outcome_of (GetSharedDatastoresForVMs [] (cluster ["node1"]))
         = Returned (ds, Some e)).
Proof. split; [reflexivity|]. intros (ds & e & Hout). discriminate Hout. Qed.

(** The three-node cluster: node1 and node2 share only the datastore
    of URL A, and node3 keeps it; the elements returned are node1's. *)
Example three_nodes_share_A :
  GetSharedDatastoresForVMs ["node1"; "node2"; "node3"] (cluster [])
  = mkOut (Returned ([ds "n1-A" "ds:///A/"], None))
      (after_calls [] [CallGetAllAccessibleDatastores "node1";
                       CallGetAllAccessibleDatastores "node2";
                       CallGetAllAccessibleDatastores "node3"])
      (replicate 3
         (Log (Verbose 4) "Getting accessible datastores for node %s")).
Proof. reflexivity. Qed.

(** A node whose accessor fails aborts the intersection with that
    error. *)
Example unknown_node_aborts :
  outcome_of (GetSharedDatastoresForVMs ["node1"; "ghost"; "node2"]
                (cluster []))
  = Returned ([], Some (CollaboratorError "vm not found")).
Proof. reflexivity. Qed.

(** Registering through the add callback, then a delete for a node that
    was never registered. *)
Example add_then_bad_delete :
  let node name :=
    NodePointer
      (Some {| v1.Name := name;
               v1.Spec := {| v1.ProviderID := "vsphere://4237-aa" |} |}) in
  (nodeAdd (node "node1") ;; nodeDelete (node "node9")) (cluster [])
  = mkOut (Returned tt)
      (after_calls ["node1"]
         [CallRegisterNode "4237-aa" "node1"; CallUnregisterNode "node9"])
      [Log Warning "Failed to unregister node:%q. err=%v"].
Proof. reflexivity. Qed.

Lemma GetSharedDatastoresForVMs_nil_witness :
  GetSharedDatastoresForVMs [] (cluster [])
  = mkOut (Returned ([], None)) (cluster []) []
  ∧ GetSharedDatastoresInK8SCluster (cluster [])
    = mkOut (Returned ([], Some EmptyNodeVMsError))
        (after_calls [] [CallGetAllNodes])
        [Log Error "Empty List of Node VMs returned from nodeManager"].
Proof.
  destruct (GetSharedDatastoresForVMs_nil (cluster [])) as [Hnil Hguard].
  split; [exact Hnil|]. apply Hguard. reflexivity.
Defined.

Lemma GetSharedDatastoresForVMs_short_circuit_witness :
  returns (GetSharedDatastoresForVMs ["node1"; "node4"; "node2"])
    (cluster [])
    ([], Some (NoSharedDatastoresError "node4"))
    (after_calls [] [CallGetAllAccessibleDatastores "node1";
                     CallGetAllAccessibleDatastores "node4"])
  ∧ GetSharedDatastoresForVMs ["node1"; "node4"; "node2"] (cluster [])
    = GetSharedDatastoresForVMs ["node1"; "node4"] (cluster []).
Proof.
  apply (GetSharedDatastoresForVMs_short_circuit
           ["node1"] ["node2"] "node4"
           [ds "n1-A" "ds:///A/"; ds "n1-B" "ds:///B/"]
           [ds "n4-E" "ds:///E/"]
           (cluster [])
           (after_calls [] [CallGetAllAccessibleDatastores "node1"])).
  - split; reflexivity.
  - reflexivity.
  - reflexivity.
Defined.

Lemma GetSharedDatastoresForVMs_identical_witness :
  outcome_of (GetSharedDatastoresForVMs ["node1"; "node5"; "node1"]
                (cluster []))
  = Returned ([ds "n1-A" "ds:///A/"; ds "n1-B" "ds:///B/"], None).
Proof.
  apply (GetSharedDatastoresForVMs_identical "node1" ["node5"; "node1"]
           [ds "n1-A" "ds:///A/"; ds "n1-B" "ds:///B/"] (cluster [])
           (after_calls [] [CallGetAllAccessibleDatastores "node1"])).
  - reflexivity.
  - discriminate.
  - reflexivity.
Defined.

Lemma GetSharedDatastoresForVMs_sublist_first_witness :
  exists accessible w1,
    cnsvsphere.GetAllAccessibleDatastores "node1" (cluster [])
    = ((accessible, None), w1)
    ∧ [ds "n1-A" "ds:///A/"] <> []
    ∧ sublist [ds "n1-A" "ds:///A/"] accessible.
Proof.
  apply (GetSharedDatastoresForVMs_sublist_first "node1" ["node2"; "node3"]
           [ds "n1-A" "ds:///A/"] (cluster [])
           (after_calls [] [CallGetAllAccessibleDatastores "node1";
                            CallGetAllAccessibleDatastores "node2";
                            CallGetAllAccessibleDatastores "node3"])).
  split; reflexivity.
Defined.

Lemma GetSharedDatastoresInTopology_preferred_first_witness :
  outcome_of
    (GetSharedDatastoresInTopology west_then_east "k8s-zone" "k8s-region"
       (cluster ["node1"; "node2"; "node3"]))
  = Returned
      ([ds "n3-A" "ds:///A/"; ds "n3-D" "ds:///D/"],
       {[ "ds:///A/" := [zone_segment "us-west"];
          "ds:///D/" := [zone_segment "us-west"] ]},
       None)
  ∧ world_of
      (GetSharedDatastoresInTopology west_then_east "k8s-zone" "k8s-region"
         (cluster ["node1"; "node2"; "node3"]))
    = after_calls ["node1"; "node2"; "node3"]
        [CallGetAllNodes;
         CallIsInZoneRegion "node1" "us-west" "";
         CallIsInZoneRegion "node2" "us-west" "";
         CallIsInZoneRegion "node3" "us-west" "";
         CallGetAllAccessibleDatastores "node3"].
Proof.
  rewrite (GetSharedDatastoresInTopology_preferred_first
             west_then_east [in_zone "us-west"] ["node1"; "node2"; "node3"]
             "k8s-zone" "k8s-region"
             [ds "n3-A" "ds:///A/"; ds "n3-D" "ds:///D/"]
             {[ "ds:///A/" := [zone_segment "us-west"];
                "ds:///D/" := [zone_segment "us-west"] ]}
             (cluster ["node1"; "node2"; "node3"])
             (after_calls ["node1"; "node2"; "node3"] [CallGetAllNodes])
             (after_calls ["node1"; "node2"; "node3"]
                [CallGetAllNodes;
                 CallIsInZoneRegion "node1" "us-west" "";
                 CallIsInZoneRegion "node2" "us-west" "";
                 CallIsInZoneRegion "node3" "us-west" "";
                 CallGetAllAccessibleDatastores "node3"])).
  - split; reflexivity.
  - reflexivity.
  - discriminate.
  - reflexivity.
  - split; vm_compute; reflexivity.
  - discriminate.
Defined.

Lemma GetSharedDatastoresInTopology_two_requisite_sets_witness :
  exists dmap,
    returns
      (GetSharedDatastoresInTopology zone_a_zone_b "k8s-zone" "k8s-region")
      (cluster ["east1"; "west1"])
      ([ds "e1-X" "ds:///X/"; ds "e1-Y" "ds:///Y/";
        ds "w1-Y" "ds:///Y/"; ds "w1-Z" "ds:///Z/"], dmap, None)
      (after_calls ["east1"; "west1"]
         [CallGetAllNodes;
          CallIsInZoneRegion "east1" "zone-a" "";
          CallIsInZoneRegion "west1" "zone-a" "";
          CallGetAllAccessibleDatastores "east1";
          CallIsInZoneRegion "east1" "zone-b" "";
          CallIsInZoneRegion "west1" "zone-b" "";
          CallGetAllAccessibleDatastores "west1"])
    ∧ dmap !! "ds:///Y/"
      = Some [zone_segment "zone-a"; zone_segment "zone-b"].
Proof.
  destruct (GetSharedDatastoresInTopology_two_requisite_sets
              (in_zone "zone-a") (in_zone "zone-b")
              ["east1"; "west1"] ["east1"] ["west1"]
              "k8s-zone" "k8s-region"
              (ds "e1-X" "ds:///X/") (ds "e1-Y" "ds:///Y/")
              (ds "w1-Y" "ds:///Y/") (ds "w1-Z" "ds:///Z/")
              (cluster ["east1"; "west1"])
              (after_calls ["east1"; "west1"] [CallGetAllNodes])
              (after_calls ["east1"; "west1"]
                 [CallGetAllNodes;
                  CallIsInZoneRegion "east1" "zone-a" "";
                  CallIsInZoneRegion "west1" "zone-a" ""])
              (after_calls ["east1"; "west1"]
                 [CallGetAllNodes;
                  CallIsInZoneRegion "east1" "zone-a" "";
                  CallIsInZoneRegion "west1" "zone-a" "";
                  CallGetAllAccessibleDatastores "east1"])
              (after_calls ["east1"; "west1"]
                 [CallGetAllNodes;
                  CallIsInZoneRegion "east1" "zone-a" "";
                  CallIsInZoneRegion "west1" "zone-a" "";
                  CallGetAllAccessibleDatastores "east1";
                  CallIsInZoneRegion "east1" "zone-b" "";
                  CallIsInZoneRegion "west1" "zone-b" ""])
              (after_calls ["east1"; "west1"]
                 [CallGetAllNodes;
                  CallIsInZoneRegion "east1" "zone-a" "";
                  CallIsInZoneRegion "west1" "zone-a" "";
                  CallGetAllAccessibleDatastores "east1";
                  CallIsInZoneRegion "east1" "zone-b" "";
                  CallIsInZoneRegion "west1" "zone-b" "";
                  CallGetAllAccessibleDatastores "west1"]))
    as (dmap & Hret & Hy).
  - reflexivity.
  - discriminate.
  - split; vm_compute; reflexivity.
  - split; reflexivity.
  - split; vm_compute; reflexivity.
  - split; reflexivity.
  - reflexivity.
  - discriminate.
  - discriminate.
  - exists dmap. split; [exact Hret | exact Hy].
Defined.

Lemma GetSharedDatastoresInTopology_no_nodes_witness :
  GetSharedDatastoresInTopology west_then_east "k8s-zone" "k8s-region"
    (cluster [])
  = mkOut (Returned ([], ∅, Some EmptyNodeVMsError))
      (after_calls [] [CallGetAllNodes])
      [Log (Verbose 4) "GetSharedDatastoresInTopology: called with topologyRequirement: %+v, zoneCategoryName: %s, regionCategoryName: %s";
       Log Error "Empty List of Node VMs returned from nodeManager"].
Proof.
  apply (GetSharedDatastoresInTopology_no_nodes west_then_east
           "k8s-zone" "k8s-region" (cluster [])
           (after_calls [] [CallGetAllNodes])).
  reflexivity.
Defined.

Lemma range_topologyArr_empty_partition_witness :
  exists l,
    range_topologyArr ["node1"; "node2"] "k8s-zone" "k8s-region"
      [in_zone "nowhere"; in_zone "us-east"]
      [ds "n3-D" "ds:///D/"] {[ "ds:///D/" := [zone_segment "us-west"] ]}
      (cluster ["node1"; "node2"])
    = after_logs l
        (range_topologyArr ["node1"; "node2"] "k8s-zone" "k8s-region"
           [in_zone "us-east"]
           [ds "n3-D" "ds:///D/"] {[ "ds:///D/" := [zone_segment "us-west"] ]}
           (after_calls ["node1"; "node2"]
              [CallIsInZoneRegion "node1" "nowhere" "";
               CallIsInZoneRegion "node2" "nowhere" ""])).
Proof.
  apply (range_topologyArr_empty_partition ["node1"; "node2"]
           "k8s-zone" "k8s-region" (in_zone "nowhere") [in_zone "us-east"]
           [ds "n3-D" "ds:///D/"]
           {[ "ds:///D/" := [zone_segment "us-west"] ]}
           (cluster ["node1"; "node2"])).
  split; vm_compute; reflexivity.
Defined.

Lemma GetSharedDatastoresInTopology_no_lists_witness :
  GetSharedDatastoresInTopology None "k8s-zone" "k8s-region"
    (cluster ["node1"])
  = mkOut (Returned ([], ∅, None))
      (after_calls ["node1"] [CallGetAllNodes])
      [Log (Verbose 4) "GetSharedDatastoresInTopology: called with topologyRequirement: %+v, zoneCategoryName: %s, regionCategoryName: %s"].
Proof.
  apply (GetSharedDatastoresInTopology_no_lists None ["node1"]
           "k8s-zone" "k8s-region" (cluster ["node1"])
           (after_calls ["node1"] [CallGetAllNodes])).
  - reflexivity.
  - discriminate.
  - reflexivity.
  - reflexivity.
Defined.

End FixtureRuns.

(** * Further properties of nodes.go *)

(** ** Filtering by URL *)

Lemma url_in_urls accessibleDatastores d :
  url_in accessibleDatastores d
  = existsb (String.eqb (types.Url (Info d))) (urls accessibleDatastores).
Proof.
  unfold url_in, urls.
  induction accessibleDatastores as [|a l IH]; simpl; [done|].
  by rewrite IH.
Qed.

Lemma filter_filter_andb {A} (f g : A -> bool) (l : list A) :
  List.filter g (List.filter f l) = List.filter (fun x => f x && g x) l.
Proof.
  induction l as [|x l IH]; simpl; [done|].
  destruct (f x); simpl; [|done]. destruct (g x); by rewrite IH.
Qed.

Lemma filter_ext_elem {A} (f g : A -> bool) (l : list A) :
  (forall x, x ∈ l -> f x = g x) -> List.filter f l = List.filter g l.
Proof.
  induction l as [|x l IH]; intros Hfg; simpl; [done|].
  rewrite (Hfg x) by apply list_elem_of_here.
  rewrite IH; [done|]. intros y Hy. apply Hfg. by apply list_elem_of_further.
Qed.

Lemma update_shared_filter sharedDatastores accessibleDatastores :
  sharedDatastores <> [] ->
  update_shared sharedDatastores accessibleDatastores
  = List.filter (url_in accessibleDatastores) sharedDatastores.
Proof.
  intros Hne. unfold update_shared.
  destruct sharedDatastores as [|s l]; [done|]. simpl Nat.eqb. cbv iota.
  by rewrite scan_shared_spec, app_nil_l.
Qed.

Lemma filter_nil_of_nil {A} (f g : A -> bool) (l : list A) :
  List.filter f l = [] -> List.filter (fun x => f x && g x) l = [].
Proof. intros Hf. by rewrite <- filter_filter_andb, Hf. Qed.

(** X5: while the running set stays non-empty, intersecting with the
    answers of two nodes gives the same set in either order. *)
Theorem update_shared_comm
    (sharedDatastores accessibleA accessibleB : list DatastoreInfo) :
  update_shared sharedDatastores accessibleA <> [] ->
  update_shared sharedDatastores accessibleB <> [] ->
  sharedDatastores <> [] ->
  update_shared (update_shared sharedDatastores accessibleA) accessibleB
  = update_shared (update_shared sharedDatastores accessibleB) accessibleA.
Proof.
  intros HA HB HS.
  rewrite (update_shared_filter _ accessibleB HA).
  rewrite (update_shared_filter _ accessibleA HB).
  rewrite !(update_shared_filter sharedDatastores) by done.
  rewrite !filter_filter_andb. apply filter_ext_elem.
  intros d _. apply andb_comm.
Qed.

Section IntersectionExtras.
Context {World VirtualMachine : Type}.
Context `{!cnsvsphere.VirtualMachineAPI World VirtualMachine}.

(** The loop always returns; with an error it returns no datastore, and
    without one it returns some unless it was given nothing at all. *)
Lemma range_nodeVMs_shape nodeVMs sharedDatastores w :
  exists ds err,
    outcome_of (range_nodeVMs nodeVMs sharedDatastores w) = Returned (ds, err)
    ∧ (is_Some err -> ds = [])
    ∧ (err = None -> nodeVMs <> [] ∨ sharedDatastores <> [] -> ds <> []).
Proof.
  revert sharedDatastores w.
  induction nodeVMs as [|nodeVM rest IH]; intros sharedDatastores w.
  - exists sharedDatastores, None. split; [done|]. split.
    + by intros [? ?].
    + by intros _ [?|?].
  - destruct (cnsvsphere.GetAllAccessibleDatastores nodeVM w)
      as [[accessible err] w1] eqn:Hacc.
    rewrite (range_nodeVMs_cons _ _ _ _ _ _ _ Hacc), outcome_after_logs.
    destruct err as [e|].
    { exists [], (Some e). by repeat split. }
    destruct (Nat.eqb _ _) eqn:Hlen.
    { exists [], (Some (NoSharedDatastoresError nodeVM)). by repeat split. }
    destruct (IH (update_shared sharedDatastores accessible) w1)
      as (ds & err & Hout & Herr & Hok).
    exists ds, err. split; [done|]. split; [done|].
    intros Hnone _. apply Hok; [done|]. right.
    intros Hnil. by rewrite Hnil in Hlen.
Qed.

(** A successful run keeps exactly the datastores of the running set
    whose URL every answer lists. *)
Lemma range_nodeVMs_exact nodeVMs sharedDatastores w ds w' :
  sharedDatastores <> [] ->
  returns (range_nodeVMs nodeVMs sharedDatastores) w (ds, None) w' ->
  ds = List.filter (reported (accessible_urls nodeVMs w)) sharedDatastores.
Proof.
  revert sharedDatastores w.
  induction nodeVMs as [|nodeVM rest IH]; intros sharedDatastores w Hne.
  - intros [Hout _]. simpl in Hout. simplify_eq. by rewrite filter_all.
  - destruct (cnsvsphere.GetAllAccessibleDatastores nodeVM w)
      as [[accessible err] w1] eqn:Hacc.
    unfold returns. rewrite (range_nodeVMs_cons _ _ _ _ _ _ _ Hacc).
    rewrite outcome_after_logs, world_after_logs.
    cbn [accessible_urls]. rewrite Hacc.
    destruct err as [e|]; [by intros [? _]|].
    destruct (Nat.eqb _ _) eqn:Hlen; [by intros [? _]|].
    intros Hret. apply IH in Hret.
    + rewrite Hret, (update_shared_filter _ _ Hne), filter_filter_andb.
      apply filter_ext_elem. intros d _. unfold reported. cbn [forallb].
      by rewrite url_in_urls.
    + intros Hnil. by rewrite Hnil in Hlen.
Qed.

(** When every accessor call succeeds, the run succeeds exactly when
    some datastore of the running set is listed by every answer. *)
Lemma range_nodeVMs_all_succeed nodeVMs sharedDatastores w answers :
  sharedDatastores <> [] ->
  accessible_urls nodeVMs w = Some <$> answers ->
  let common := List.filter (reported (Some <$> answers)) sharedDatastores in
  (common <> [] ->
   outcome_of (range_nodeVMs nodeVMs sharedDatastores w)
   = Returned (common, None))
  ∧ (common = [] ->
     exists nodeVM,
       nodeVM ∈ nodeVMs
       ∧ outcome_of (range_nodeVMs nodeVMs sharedDatastores w)
         = Returned ([], Some (NoSharedDatastoresError nodeVM))).
Proof.
  revert sharedDatastores w answers.
  induction nodeVMs as [|nodeVM rest IH];
    intros sharedDatastores w answers Hne Hpoll.
  - destruct answers; [|done]. cbn zeta. simpl fmap.
    rewrite filter_all by done. split; [done|]. by intros ?.
  - destruct (cnsvsphere.GetAllAccessibleDatastores nodeVM w)
      as [[accessible err] w1] eqn:Hacc.
    cbn [accessible_urls] in Hpoll. rewrite Hacc in Hpoll.
    destruct answers as [|us answers]; [done|].
    cbn [fmap list_fmap] in Hpoll. injection Hpoll as Hus Hpoll.
    destruct err as [e|]; [done|]. injection Hus as Hus.
    rewrite (range_nodeVMs_cons _ _ _ _ _ _ _ Hacc), outcome_after_logs.
    rewrite (update_shared_filter _ _ Hne).
    assert (Hsplit :
      List.filter (reported (Some <$> us :: answers)) sharedDatastores
      = List.filter (reported (Some <$> answers))
          (List.filter (url_in accessible) sharedDatastores)).
    { rewrite filter_filter_andb. apply filter_ext_elem. intros d _.
      unfold reported. cbn [fmap list_fmap forallb].
      by rewrite url_in_urls, Hus. }
    cbv zeta. rewrite Hsplit.
    destruct (Nat.eqb _ _) eqn:Hlen.
    + apply length_eqb_0 in Hlen. rewrite Hlen. simpl. split; [done|].
      intros _. exists nodeVM. split; [apply list_elem_of_here|done].
    + assert (Hne' : List.filter (url_in accessible) sharedDatastores <> []).
      { intros Hnil. by rewrite Hnil in Hlen. }
      destruct (IH _ w1 answers Hne' Hpoll) as [Hok Hfail].
      split; [done|]. intros Hnil.
      destruct (Hfail Hnil) as (n & Hn & Hout).
      exists n. split; [by apply list_elem_of_further|done].
Qed.

(** X1: if the nodes of [pre] have been processed without an error and
    the accessor call for [nodeVM] then fails with [e],
    [GetSharedDatastoresForVMs] returns no datastore and the error [e];
    the world is the one left by the failed call and the whole output
    is the same whatever nodes follow. *)
Theorem GetSharedDatastoresForVMs_accessor_error
    (pre post : list VirtualMachine) (nodeVM : VirtualMachine)
    (shared accessible : list DatastoreInfo)
    (e : error VirtualMachine) (w w1 w2 : World) :
  returns (GetSharedDatastoresForVMs pre) w (shared, None) w1 ->
  cnsvsphere.GetAllAccessibleDatastores nodeVM w1
  = ((accessible, Some e), w2) ->
  returns (GetSharedDatastoresForVMs (pre ++ nodeVM :: post)) w
    ([], Some e) w2
  ∧ GetSharedDatastoresForVMs (pre ++ nodeVM :: post) w
    = GetSharedDatastoresForVMs (pre ++ [nodeVM]) w.
Proof.
  intros [Hpre Hw1] Hacc.
  unfold returns, GetSharedDatastoresForVMs in *.
  rewrite !range_nodeVMs_app. cbv zeta. rewrite Hpre, Hw1.
  rewrite !(range_nodeVMs_cons _ _ _ _ _ _ _ Hacc). by split.
Qed.

(** X2: when [GetSharedDatastoresForVMs] succeeds on [nodeVM :: rest],
    it returns the sequence fetched for [nodeVM] with exactly those
    elements removed whose URL is missing from the answer for some later
    node; in particular every later accessor call succeeded. *)
Theorem GetSharedDatastoresForVMs_exact
    (nodeVM : VirtualMachine) (rest : list VirtualMachine)
    (ds : list DatastoreInfo) (w w' : World) :
  returns (GetSharedDatastoresForVMs (nodeVM :: rest)) w (ds, None) w' ->
  exists accessible w1,
    cnsvsphere.GetAllAccessibleDatastores nodeVM w = ((accessible, None), w1)
    ∧ ds = List.filter (reported (accessible_urls rest w1)) accessible.
Proof.
  unfold GetSharedDatastoresForVMs, returns.
  destruct (cnsvsphere.GetAllAccessibleDatastores nodeVM w)
    as [[accessible err] w1] eqn:Hacc.
  rewrite (range_nodeVMs_cons _ _ _ _ _ _ _ Hacc).
  rewrite outcome_after_logs, world_after_logs, update_shared_nil.
  destruct err as [e|]; [by intros [? _]|].
  destruct (Nat.eqb _ _) eqn:Hlen; [by intros [? _]|].
  intros Hret. exists accessible, w1. split; [done|].
  eapply range_nodeVMs_exact; [|exact Hret].
  intros Hnil. by rewrite Hnil in Hlen.
Qed.

(** X3: when the accessor call succeeds for every node of
    [nodeVM :: rest], with [accessible] for the first and the URL
    sequences [answers] for the others, let [common] be the elements of
    [accessible] whose URL every later answer lists.  If [common] is not
    empty the call returns it with a nil error; if it is empty the call
    returns no datastore and the error naming one of the nodes. *)
Theorem GetSharedDatastoresForVMs_success_criterion
    (nodeVM : VirtualMachine) (rest : list VirtualMachine)
    (accessible : list DatastoreInfo) (answers : list (list string))
    (w w1 : World) :
  cnsvsphere.GetAllAccessibleDatastores nodeVM w = ((accessible, None), w1) ->
  accessible_urls rest w1 = Some <$> answers ->
  let common := List.filter (reported (Some <$> answers)) accessible in
  (common <> [] ->
   outcome_of (GetSharedDatastoresForVMs (nodeVM :: rest) w)
   = Returned (common, None))
  ∧ (common = [] ->
     exists culprit,
       culprit ∈ nodeVM :: rest
       ∧ outcome_of (GetSharedDatastoresForVMs (nodeVM :: rest) w)
         = Returned ([], Some (NoSharedDatastoresError culprit))).
Proof.
  intros Hacc Hpoll. cbv zeta. unfold GetSharedDatastoresForVMs.
  rewrite (range_nodeVMs_cons _ _ _ _ _ _ _ Hacc), outcome_after_logs.
  rewrite update_shared_nil.
  destruct (Nat.eqb _ _) eqn:Hlen.
  - apply length_eqb_0 in Hlen. subst accessible. simpl. split; [done|].
    intros _. exists nodeVM. split; [apply list_elem_of_here|done].
  - assert (Hne : accessible <> []).
    { intros Hnil. by rewrite Hnil in Hlen. }
    destruct (range_nodeVMs_all_succeed rest accessible w1 answers Hne Hpoll)
      as [Hok Hfail].
    split; [done|]. intros Hnil.
    destruct (Hfail Hnil) as (n & Hn & Hout).
    exists n. split; [by apply list_elem_of_further|done].
Qed.


End IntersectionExtras.

(** ** getNodesInZoneRegion *)

Section PartitionExtras.
Context {World VirtualMachine : Type}.
Context `{!cnsvsphere.VirtualMachineAPI World VirtualMachine}.

(** One iteration of the loop over [allNodes], after the membership
    test has answered. *)
Lemma range_allNodes_cons nodeVM rest zc rc zoneValue regionValue acc w
    isNodeInZoneRegion err w1 :
  cnsvsphere.IsInZoneRegion nodeVM zc rc zoneValue regionValue w
  = ((isNodeInZoneRegion, err), w1) ->
  range_allNodes (nodeVM :: rest) zc rc zoneValue regionValue acc w
  = match err with
    | Some e =>
        mkOut (Returned ([], Some e)) w1
          [Log Error "Error checking if node VM: %v belongs to zone [%s] and region [%s]. err: %+v"]
    | None =>
        range_allNodes rest zc rc zoneValue regionValue
          (if isNodeInZoneRegion then acc ++ [nodeVM] else acc) w1
    end.
Proof.
  intros Hin. cbn [range_allNodes]. rewrite (bind_call _ _ _ _ _ Hin).
  by destruct err.
Qed.

Lemma range_allNodes_app pre post zc rc zoneValue regionValue acc w :
  range_allNodes (pre ++ post) zc rc zoneValue regionValue acc w
  = let o := range_allNodes pre zc rc zoneValue regionValue acc w in
    match outcome_of o with
    | Returned (acc', None) =>
        after_logs (logs_of o)
          (range_allNodes post zc rc zoneValue regionValue acc' (world_of o))
    | _ => o
    end.
Proof.
  revert acc w. induction pre as [|nodeVM pre IH]; intros acc w.
  - simpl. by rewrite after_logs_nil.
  - rewrite <- app_comm_cons.
    destruct (cnsvsphere.IsInZoneRegion nodeVM zc rc zoneValue regionValue w)
      as [[b err] w1] eqn:Hin.
    rewrite !(range_allNodes_cons _ _ _ _ _ _ _ _ _ _ _ Hin).
    destruct err as [e|]; [done|]. apply IH.
Qed.

Lemma range_allNodes_shape allNodes zc rc zoneValue regionValue acc w :
  exists nodeVMs err,
    outcome_of (range_allNodes allNodes zc rc zoneValue regionValue acc w)
    = Returned (nodeVMs, err)
    ∧ (is_Some err -> nodeVMs = []).
Proof.
  revert acc w. induction allNodes as [|nodeVM rest IH]; intros acc w.
  - exists acc, None. split; [done|]. by intros [? ?].
  - destruct (cnsvsphere.IsInZoneRegion nodeVM zc rc zoneValue regionValue w)
      as [[b err] w1] eqn:Hin.
    rewrite (range_allNodes_cons _ _ _ _ _ _ _ _ _ _ _ Hin).
    destruct err as [e|]; [|apply IH].
    exists [], (Some e). by split.
Qed.

Lemma range_allNodes_sublist allNodes zc rc zoneValue regionValue acc w
    nodeVMs w' :
  returns (range_allNodes allNodes zc rc zoneValue regionValue acc) w
    (nodeVMs, None) w' ->
  exists picked, nodeVMs = acc ++ picked ∧ sublist picked allNodes.
Proof.
  revert acc w. induction allNodes as [|nodeVM rest IH]; intros acc w.
  - intros [Hout _]. simpl in Hout. simplify_eq.
    exists []. by rewrite app_nil_r.
  - destruct (cnsvsphere.IsInZoneRegion nodeVM zc rc zoneValue regionValue w)
      as [[b err] w1] eqn:Hin.
    unfold returns. rewrite (range_allNodes_cons _ _ _ _ _ _ _ _ _ _ _ Hin).
    destruct err as [e|]; [by intros [? _]|].
    intros Hret. apply IH in Hret as (picked & -> & Hsub).
    destruct b.
    + exists (nodeVM :: picked). rewrite <- app_assoc. split; [done|].
      by constructor.
    + exists picked. split; [done|]. by constructor.
Qed.

Lemma range_allNodes_stable allNodes zc rc zoneValue regionValue
    (member : VirtualMachine -> bool) acc w :
  (forall nodeVM, nodeVM ∈ allNodes -> forall w0,
     (cnsvsphere.IsInZoneRegion nodeVM zc rc zoneValue regionValue w0).1
     = (member nodeVM, None)) ->
  outcome_of (range_allNodes allNodes zc rc zoneValue regionValue acc w)
  = Returned (acc ++ List.filter member allNodes, None).
Proof.
  revert acc w. induction allNodes as [|nodeVM rest IH]; intros acc w Hst.
  - simpl. by rewrite app_nil_r.
  - destruct (cnsvsphere.IsInZoneRegion nodeVM zc rc zoneValue regionValue w)
      as [[b err] w1] eqn:Hin.
    pose proof (Hst nodeVM (list_elem_of_here _ _) w) as Hhd.
    rewrite Hin in Hhd. simpl in Hhd. injection Hhd as -> ->.
    rewrite (range_allNodes_cons _ _ _ _ _ _ _ _ _ _ _ Hin).
    rewrite IH.
    + simpl. destruct (member nodeVM); [|done]. by rewrite <- app_assoc.
    + intros n Hn. apply Hst. by apply list_elem_of_further.
Qed.

(** X6: the nodes [getNodesInZoneRegion] returns without an error are
    nodes of [allNodes], each at most as often as there and in the same
    order. *)
Theorem getNodesInZoneRegion_sublist
    (allNodes nodeVMs : list VirtualMachine)
    (zc rc zoneValue regionValue : string) (w w' : World) :
  returns (getNodesInZoneRegion allNodes zc rc zoneValue regionValue) w
    (nodeVMs, None) w' ->
  sublist nodeVMs allNodes.
Proof.
  unfold getNodesInZoneRegion, returns. rewrite bind_klog.
  rewrite outcome_after_logs, world_after_logs. intros Hret.
  by apply range_allNodes_sublist in Hret as (picked & -> & Hsub).
Qed.

(** X7: if for every node of [allNodes] the membership test answers
    [member] without an error in whatever world it is asked,
    [getNodesInZoneRegion] returns the nodes of [allNodes] that satisfy
    [member], in the order of [allNodes]. *)
Theorem getNodesInZoneRegion_stable
    (allNodes : list VirtualMachine) (member : VirtualMachine -> bool)
    (zc rc zoneValue regionValue : string) (w : World) :
  (forall nodeVM, nodeVM ∈ allNodes -> forall w0,
     (cnsvsphere.IsInZoneRegion nodeVM zc rc zoneValue regionValue w0).1
     = (member nodeVM, None)) ->
  outcome_of (getNodesInZoneRegion allNodes zc rc zoneValue regionValue w)
  = Returned (List.filter member allNodes, None).
Proof.
  intros Hst. unfold getNodesInZoneRegion.
  rewrite bind_klog, outcome_after_logs.
  by rewrite (range_allNodes_stable _ _ _ _ _ member).
Qed.

(** X8: if the nodes of [pre] have been tested without an error and the
    membership test for [nodeVM] then fails with [e],
    [getNodesInZoneRegion] returns no node and the error [e]: the nodes
    already selected are dropped, the world is the one left by the
    failed test and the whole output is the same whatever nodes
    follow. *)
Theorem getNodesInZoneRegion_error
    (pre post selected : list VirtualMachine) (nodeVM : VirtualMachine)
    (zc rc zoneValue regionValue : string) (b : bool)
    (e : error VirtualMachine) (w w1 w2 : World) :
  returns (getNodesInZoneRegion pre zc rc zoneValue regionValue) w
    (selected, None) w1 ->
  cnsvsphere.IsInZoneRegion nodeVM zc rc zoneValue regionValue w1
  = ((b, Some e), w2) ->
  returns
    (getNodesInZoneRegion (pre ++ nodeVM :: post) zc rc zoneValue regionValue)
    w ([], Some e) w2
  ∧ getNodesInZoneRegion (pre ++ nodeVM :: post) zc rc zoneValue regionValue w
    = getNodesInZoneRegion (pre ++ [nodeVM]) zc rc zoneValue regionValue w.
Proof.
  unfold getNodesInZoneRegion, returns. rewrite !bind_klog.
  rewrite !outcome_after_logs, !world_after_logs.
  intros [Hpre Hw1] Hin. rewrite !range_allNodes_app. cbv zeta.
  rewrite Hpre, Hw1.
  rewrite !(range_allNodes_cons _ _ _ _ _ _ _ _ _ _ _ Hin). by split.
Qed.

End PartitionExtras.

(** ** The topology map *)

Section TopologyMapLemmas.
Context `{!csitypes.Labels}.

Lemma occurrences_app u l1 l2 :
  occurrences u (l1 ++ l2) = occurrences u l1 + occurrences u l2.
Proof. unfold occurrences, urls. by rewrite map_app, count_occ_app. Qed.

Lemma occurrences_cons u d l :
  occurrences u (d :: l)
  = (if decide (types.Url (Info d) = u) then 1 else 0) + occurrences u l.
Proof.
  unfold occurrences, urls. simpl.
  destruct (String.string_dec _ _); by case_decide.
Qed.

(** What the loop over the datastores of one segment-set does to the
    entry of each URL: one more segment map per occurrence. *)
Lemma range_sharedDatastoresInZoneRegion_at ds zone region dmap u :
  segments_at (range_sharedDatastoresInZoneRegion ds zone region dmap) u
  = segments_at dmap u
    ++ replicate (occurrences u ds) (accessibleTopology zone region).
Proof.
  revert dmap. induction ds as [|d ds IH]; intros dmap.
  - simpl. by rewrite app_nil_r.
  - cbn [range_sharedDatastoresInZoneRegion]. rewrite IH, occurrences_cons.
    unfold segments_at. case_decide as Hu.
    + subst u. rewrite lookup_insert_eq. simpl. by rewrite <- app_assoc.
    + by rewrite lookup_insert_ne.
Qed.

Lemma range_sharedDatastoresInZoneRegion_key ds zone region dmap u :
  is_Some (range_sharedDatastoresInZoneRegion ds zone region dmap !! u)
  <-> is_Some (dmap !! u) ∨ u ∈ urls ds.
Proof.
  revert dmap. induction ds as [|d ds IH]; intros dmap.
  - simpl. split; [by left|]. intros [?|Hin]; [done|]. by inversion Hin.
  - cbn [range_sharedDatastoresInZoneRegion]. rewrite IH.
    unfold urls. cbn [map]. rewrite elem_of_cons.
    destruct (decide (types.Url (Info d) = u)) as [<-|Hne].
    + rewrite lookup_insert_eq. split; [by intros _; right; left|].
      intros _. left. by eexists.
    + rewrite lookup_insert_ne by done. split.
      * intros [?|?]; [by left|by right; right].
      * intros [?|[?|?]]; [by left|congruence|by right].
Qed.

End TopologyMapLemmas.

(** ** getSharedDatastoresInTopology and its callers *)

Section TopologyExtras.
Context {World VirtualMachine : Type}.
Context `{!cnsvsphere.VirtualMachineAPI World VirtualMachine}.
Context `{!cnsnode.Manager World VirtualMachine}.
Context `{!csitypes.Labels}.

Abbreviation TopologyMap := (gmap string (list (gmap string string))).

Lemma getNodesInZoneRegion_shape allNodes zc rc zoneValue regionValue
    (w : World) :
  exists (nodeVMs : list VirtualMachine) err,
    outcome_of (getNodesInZoneRegion allNodes zc rc zoneValue regionValue w)
    = Returned (nodeVMs, err).
Proof.
  unfold getNodesInZoneRegion. rewrite bind_klog, outcome_after_logs.
  destruct (range_allNodes_shape allNodes zc rc zoneValue regionValue [] w)
    as (nodeVMs & err & Hout & _).
  by exists nodeVMs, err.
Qed.

(** An invariant of the accumulated sequence and map that every
    segment-set preserves holds of what the loop returns without an
    error; with an error the loop returns an empty sequence and an empty
    map. *)
Lemma range_topologyArr_inv (P : list DatastoreInfo -> TopologyMap -> Prop)
    (allNodes : list VirtualMachine) zc rc topologyArr shared dmap
    (w : World) :
  P shared dmap ->
  (forall t s m ds,
     t ∈ topologyArr -> P s m ->
     P (s ++ ds)
       (range_sharedDatastoresInZoneRegion ds (zone_of t) (region_of t) m)) ->
  exists s m err,
    outcome_of (range_topologyArr allNodes zc rc topologyArr shared dmap w)
    = Returned (s, m, err)
    ∧ match err with
      | None => P s m
      | Some _ => s = [] ∧ m = ∅
      end.
Proof.
  revert shared dmap w.
  induction topologyArr as [|t rest IH]; intros shared dmap w HP Hstep.
  - by exists shared, dmap, None.
  - cbn [range_topologyArr]. cbv zeta. fold (zone_of t). fold (region_of t).
    rewrite bind_klog, outcome_after_logs.
    destruct (getNodesInZoneRegion_shape allNodes zc rc
                (zone_of t) (region_of t) w) as (nodeVMs & err & Hnodes).
    rewrite (bind_Returned _ _ _ _ Hnodes), outcome_after_logs.
    cbv beta iota.
    destruct err as [e|]; [by exists [], ∅, (Some e)|].
    rewrite bind_klog, outcome_after_logs.
    destruct (range_nodeVMs_shape nodeVMs []
                (world_of (getNodesInZoneRegion allNodes zc rc
                             (zone_of t) (region_of t) w)))
      as (ds & err & Hds & _).
    unfold GetSharedDatastoresForVMs.
    rewrite (bind_Returned _ _ _ _ Hds), outcome_after_logs.
    cbv beta iota.
    destruct err as [e|]; [by exists [], ∅, (Some e)|].
    rewrite bind_klog, outcome_after_logs.
    apply IH.
    + apply Hstep; [apply list_elem_of_here|done].
    + intros t' s m ds' Ht'. apply Hstep. by apply list_elem_of_further.
Qed.

Lemma getSharedDatastoresInTopology_inv
    (P : list DatastoreInfo -> TopologyMap -> Prop)
    (allNodes : list VirtualMachine) zc rc topologyArr (w : World) :
  P [] ∅ ->
  (forall t s m ds,
     t ∈ topologyArr -> P s m ->
     P (s ++ ds)
       (range_sharedDatastoresInZoneRegion ds (zone_of t) (region_of t) m)) ->
  exists s m err,
    outcome_of (getSharedDatastoresInTopology allNodes zc rc topologyArr w)
    = Returned (s, m, err)
    ∧ match err with
      | None => P s m
      | Some _ => s = [] ∧ m = ∅
      end.
Proof.
  intros HP Hstep. unfold getSharedDatastoresInTopology.
  rewrite bind_klog, outcome_after_logs. by apply range_topologyArr_inv.
Qed.

Lemma requisite_pass_inv (P : list DatastoreInfo -> TopologyMap -> Prop)
    (allNodes : list VirtualMachine) req zc rc shared dmap (w : World) :
  P [] ∅ -> P shared dmap ->
  (forall t s m ds,
     t ∈ elems (csi.GetRequisite req) -> P s m ->
     P (s ++ ds)
       (range_sharedDatastoresInZoneRegion ds (zone_of t) (region_of t) m)) ->
  exists s m err,
    outcome_of (requisite_pass allNodes req zc rc shared dmap w)
    = Returned (s, m, err)
    ∧ match err with
      | None => P s m
      | Some _ => s = [] ∧ m = ∅
      end.
Proof.
  intros HP0 HP Hstep. unfold requisite_pass.
  destruct (_ && _); [|by exists shared, dmap, None].
  rewrite bind_klog, outcome_after_logs.
  destruct (getSharedDatastoresInTopology_inv P allNodes zc rc
              (elems (csi.GetRequisite req)) w HP0 Hstep)
    as (s & m & err & Hout & Hshape).
  rewrite (bind_Returned _ _ _ _ Hout), outcome_after_logs. cbv beta iota.
  destruct err as [e|]; [by exists [], ∅, (Some e)|].
  by exists s, m, None.
Qed.

Lemma GetSharedDatastoresInTopology_inv
    (P : list DatastoreInfo -> TopologyMap -> Prop) req zc rc (w : World) :
  P [] ∅ ->
  (forall t s m ds,
     t ∈ elems (csi.GetPreferred req) ++ elems (csi.GetRequisite req) ->
     P s m ->
     P (s ++ ds)
       (range_sharedDatastoresInZoneRegion ds (zone_of t) (region_of t) m)) ->
  exists s m err,
    outcome_of (GetSharedDatastoresInTopology req zc rc w)
    = Returned (s, m, err)
    ∧ match err with
      | None => P s m
      | Some _ => s = [] ∧ m = ∅
      end.
Proof.
  intros HP0 Hstep. unfold GetSharedDatastoresInTopology.
  rewrite bind_klog, outcome_after_logs.
  destruct (cnsnode.GetAllNodes w) as [[allNodes err] w1] eqn:Hall.
  rewrite (bind_call _ _ _ _ _ Hall).
  destruct err as [e|]; [by exists [], ∅, (Some e)|].
  destruct (Nat.eqb _ _); [by exists [], ∅, (Some EmptyNodeVMsError)|].
  assert (Hreq : forall t s m ds,
            t ∈ elems (csi.GetRequisite req) -> P s m ->
            P (s ++ ds)
              (range_sharedDatastoresInZoneRegion ds
                 (zone_of t) (region_of t) m)).
  { intros t s m ds Ht. apply Hstep. apply elem_of_app. by right. }
  destruct (_ && _); [|by apply requisite_pass_inv].
  rewrite bind_klog, outcome_after_logs.
  destruct (getSharedDatastoresInTopology_inv P allNodes zc rc
              (elems (csi.GetPreferred req)) w1 HP0)
    as (s & m & err & Hout & Hshape).
  { intros t s m ds Ht. apply Hstep. apply elem_of_app. by left. }
  rewrite (bind_Returned _ _ _ _ Hout), outcome_after_logs. cbv beta iota.
  destruct err as [e|]; [by exists [], ∅, (Some e)|].
  by apply requisite_pass_inv.
Qed.

(** X9: in whatever [GetSharedDatastoresInTopology] returns, a URL is
    a key of the topology map exactly when it is the URL of a returned
    datastore, and its entry holds one segment map for each occurrence
    of the URL in the returned sequence. *)
Theorem GetSharedDatastoresInTopology_map_matches_sequence
    (req : option csi.TopologyRequirement) (zc rc : string) (w : World)
    (ds : list DatastoreInfo) (dmap : TopologyMap)
    (err : option (error VirtualMachine)) (u : string) :
  outcome_of (GetSharedDatastoresInTopology req zc rc w)
  = Returned (ds, dmap, err) ->
  length (segments_at dmap u) = occurrences u ds
  ∧ (is_Some (dmap !! u) <-> u ∈ urls ds).
Proof.
  intros Hout.
  destruct (GetSharedDatastoresInTopology_inv
              (fun s m => forall u,
                 length (segments_at m u) = occurrences u s
                 ∧ (is_Some (m !! u) <-> u ∈ urls s))
              req zc rc w) as (s & m & err' & Hout' & Hshape).
  - intros u'. split; [done|]. rewrite lookup_empty. split.
    + by intros [? ?].
    + intros Hin. by inversion Hin.
  - intros t s m ds' _ HP u'. destruct (HP u') as [Hlen Hkey]. split.
    + rewrite range_sharedDatastoresInZoneRegion_at, length_app.
      by rewrite length_replicate, occurrences_app, Hlen.
    + rewrite range_sharedDatastoresInZoneRegion_key, Hkey.
      unfold urls. rewrite map_app, elem_of_app. done.
  - rewrite Hout in Hout'. simplify_eq. destruct err' as [e|].
    + destruct Hshape as [-> ->]. split; [done|]. rewrite lookup_empty.
      split; [by intros [? ?]|]. intros Hin. by inversion Hin.
    + apply Hshape.
Qed.


(** X11: every segment map found in the returned topology map is the
    segment map of one of the supplied preferred or requisite
    segment-sets. *)
Theorem GetSharedDatastoresInTopology_segments_supplied
    (req : option csi.TopologyRequirement) (zc rc : string) (w : World)
    (ds : list DatastoreInfo) (dmap : TopologyMap)
    (err : option (error VirtualMachine)) (u : string)
    (segment : gmap string string) :
  outcome_of (GetSharedDatastoresInTopology req zc rc w)
  = Returned (ds, dmap, err) ->
  segment ∈ segments_at dmap u ->
  exists t,
    t ∈ elems (csi.GetPreferred req) ++ elems (csi.GetRequisite req)
    ∧ segment = accessibleTopology (zone_of t) (region_of t).
Proof.
  intros Hout Hseg.
  destruct (GetSharedDatastoresInTopology_inv
              (fun _ m => forall u seg,
                 seg ∈ segments_at m u ->
                 exists t,
                   t ∈ elems (csi.GetPreferred req)
                       ++ elems (csi.GetRequisite req)
                   ∧ seg = accessibleTopology (zone_of t) (region_of t))
              req zc rc w) as (s & m & err' & Hout' & Hshape).
  - intros u' seg Hin. unfold segments_at in Hin.
    rewrite lookup_empty in Hin. by inversion Hin.
  - intros t s m ds' Ht HP u' seg.
    rewrite range_sharedDatastoresInZoneRegion_at, elem_of_app.
    intros [Hin|Hin]; [by eapply HP|].
    apply elem_of_replicate in Hin as [-> _]. by exists t.
  - rewrite Hout in Hout'. simplify_eq. destruct err' as [e|].
    + destruct Hshape as [_ ->]. unfold segments_at in Hseg.
      rewrite lookup_empty in Hseg. by inversion Hseg.
    + by eapply Hshape.
Qed.

End TopologyExtras.

Section TopologyFlowExtras.
Context {World VirtualMachine : Type}.
Context `{!cnsvsphere.VirtualMachineAPI World VirtualMachine}.
Context `{!cnsnode.Manager World VirtualMachine}.
Context `{!csitypes.Labels}.

(** X12: a segment map built for a segment-set binds nothing but the
    zone key to the zone value and the region key to the region value,
    and never binds a key to the empty string. *)
Theorem accessibleTopology_entries (zone region k v : string) :
  accessibleTopology zone region !! k = Some v ->
  v <> ""
  ∧ ((k = csitypes.LabelZoneFailureDomain ∧ v = zone)
     ∨ (k = csitypes.LabelRegionFailureDomain ∧ v = region)).
Proof.
  unfold accessibleTopology. cbv zeta.
  destruct (String.eqb zone "") eqn:Hz; destruct (String.eqb region "") eqn:Hr;
    simpl negb; cbv iota.
  - by rewrite lookup_empty.
  - apply String.eqb_neq in Hr. rewrite lookup_insert.
    case_decide; [|by rewrite lookup_empty].
    intros [= <-]. split; [done|]. by right.
  - apply String.eqb_neq in Hz. rewrite lookup_insert.
    case_decide; [|by rewrite lookup_empty].
    intros [= <-]. split; [done|]. by left.
  - apply String.eqb_neq in Hz. apply String.eqb_neq in Hr.
    rewrite lookup_insert. case_decide.
    + intros [= <-]. split; [done|]. by right.
    + rewrite lookup_insert. case_decide; [|by rewrite lookup_empty].
      intros [= <-]. split; [done|]. by left.
Qed.

(** X13: when the preferred pass returns no datastore and no error and
    a requisite list is supplied, [GetSharedDatastoresInTopology]
    returns what the requisite pass returns, run in the world the
    preferred pass left; the map of the preferred pass is dropped. *)
Theorem GetSharedDatastoresInTopology_fallback
    (req : option csi.TopologyRequirement)
    (preferred requisite : list (option csi.Topology))
    (allNodes : list VirtualMachine) (zc rc : string)
    (dmap0 dmap : gmap string (list (gmap string string)))
    (ds : list DatastoreInfo) (w w1 w2 w3 : World) :
  cnsnode.GetAllNodes w = ((allNodes, None), w1) ->
  allNodes <> [] ->
  csi.GetPreferred req = Some preferred ->
  csi.GetRequisite req = Some requisite ->
  returns (getSharedDatastoresInTopology allNodes zc rc preferred) w1
    ([], dmap0, None) w2 ->
  returns (getSharedDatastoresInTopology allNodes zc rc requisite) w2
    (ds, dmap, None) w3 ->
  returns (GetSharedDatastoresInTopology req zc rc) w (ds, dmap, None) w3.
Proof.
  intros Hall Hne Hpref Hreq [Hp Hw2] [Hr Hw3]. unfold returns.
  unfold GetSharedDatastoresInTopology. rewrite bind_klog.
  rewrite (bind_call _ _ _ _ _ Hall), (nonempty_length _ Hne), Hpref.
  destruct req as [r|]; [|done]. cbn [isnil negb andb elems default].
  rewrite bind_klog, (bind_Returned _ _ _ _ Hp), Hw2. cbv beta iota.
  unfold requisite_pass. rewrite Hreq.
  cbn [length Nat.eqb isnil negb andb elems default].
  rewrite bind_klog, (bind_Returned _ _ _ _ Hr), Hw3. done.
Qed.

(** X14: if the nodes selected for a segment-set share no datastore, or
    the accessor fails for one of them, the loop over the segment-sets
    stops there: it returns that error with an empty sequence and an
    empty map, whatever was gathered from earlier sets and whatever
    sets follow. *)
Theorem range_topologyArr_set_fails
    (allNodes nodeVMs : list VirtualMachine) (zc rc : string)
    (topology : option csi.Topology) (rest : list (option csi.Topology))
    (shared ds : list DatastoreInfo)
    (dmap : gmap string (list (gmap string string)))
    (e : error VirtualMachine) (w w1 w2 : World) :
  returns (getNodesInZoneRegion allNodes zc rc
             (zone_of topology) (region_of topology)) w (nodeVMs, None) w1 ->
  returns (GetSharedDatastoresForVMs nodeVMs) w1 (ds, Some e) w2 ->
  returns (range_topologyArr allNodes zc rc (topology :: rest) shared dmap)
    w ([], ∅, Some e) w2
  ∧ range_topologyArr allNodes zc rc (topology :: rest) shared dmap w
    = range_topologyArr allNodes zc rc [topology] [] ∅ w.
Proof.
  intros [Hnodes Hw1] [Hds Hw2]. unfold returns.
  cbn [range_topologyArr]. cbv zeta. fold (zone_of topology).
  fold (region_of topology). rewrite !bind_klog.
  rewrite !(bind_Returned _ _ _ _ Hnodes), Hw1. cbv beta iota.
  rewrite !bind_klog.
  rewrite !(bind_Returned _ _ _ _ Hds), Hw2. cbv beta iota.
  by split.
Qed.


End TopologyFlowExtras.

(** * cns.go *)

Section CnsProperties.
Context {World Vim25 Cns Other : Type}.
Context `{!cns.API World Vim25 Cns}.
Context `{!vsphere.Methods World Vim25 Cns Other}.

(** X16: when [Connect] succeeds and leaves a CNS client in place,
    [ConnectCNS] returns the receiver as [Connect] left it with a nil
    error; no client is created and nothing is logged. *)
Theorem ConnectCNS_keeps_client
    (vc vc1 : vsphere.VirtualCenter Vim25 Cns Other) (c : Cns)
    (w w1 : World) :
  vsphere.Connect vc w = ((vc1, None), w1) ->
  vsphere.CnsClient vc1 = Some c ->
  ConnectCNS vc w = mkOut (Returned (vc1, None)) w1 [].
Proof.
  intros Hconn Hclient. unfold ConnectCNS.
  by rewrite (bind_call _ _ _ _ _ Hconn), Hclient.
Qed.

(** X17: [DisconnectCNS] calls no collaborator and changes nothing of
    the receiver but the CNS client, which it leaves nil; calling it
    again changes nothing more. *)
Theorem DisconnectCNS_clears
    (vc : vsphere.VirtualCenter Vim25 Cns Other) (w : World) :
  exists vc',
    outcome_of (DisconnectCNS vc w) = Returned vc'
    ∧ world_of (DisconnectCNS vc w) = w
    ∧ vc' = vsphere.set_CnsClient None vc
    ∧ outcome_of (DisconnectCNS vc' w) = Returned vc'.
Proof.
  exists (vsphere.set_CnsClient None vc). unfold DisconnectCNS.
  destruct vc as [host client [c|] rest]; by repeat split.
Qed.

(** X18: after [DisconnectCNS], a [ConnectCNS] whose [Connect] succeeds
    without touching the receiver asks for a new client and stores
    exactly the client it is given. *)
Theorem ConnectCNS_after_DisconnectCNS
    (vc vc0 : vsphere.VirtualCenter Vim25 Cns Other) (c : option Cns)
    (w w1 w2 : World) :
  outcome_of (DisconnectCNS vc w) = Returned vc0 ->
  vsphere.Connect vc0 w = ((vc0, None), w1) ->
  cns.NewClient (vsphere.Client_Client vc) w1 = ((c, None), w2) ->
  returns (ConnectCNS vc0) w (vsphere.set_CnsClient c vc, None) w2.
Proof.
  intros Hdis Hconn Hnew.
  assert (vc0 = vsphere.set_CnsClient None vc) as ->.
  { unfold DisconnectCNS in Hdis.
    destruct vc as [host client [c0|] rest]; simpl in Hdis; by simplify_eq. }
  unfold returns, ConnectCNS, NewCNSClient.
  rewrite (bind_call _ _ _ _ _ Hconn). cbn [vsphere.CnsClient
    vsphere.set_CnsClient vsphere.Client_Client isnil].
  rewrite (bind_Returned _ _ (w1) (c, None)).
  - rewrite (bind_call _ _ _ _ _ Hnew). done.
  - by rewrite (bind_call _ _ _ _ _ Hnew).
Qed.

(** X19: when [Connect] succeeds with no CNS client in place and
    [cns.NewClient] fails, [ConnectCNS] returns that error and leaves
    the CNS client nil, even if [cns.NewClient] handed a client back
    with its error; a later [ConnectCNS] therefore tries again. *)
Theorem ConnectCNS_creation_fails
    (vc vc1 : vsphere.VirtualCenter Vim25 Cns Other) (c : option Cns)
    (e : error Empty_set) (w w1 w2 : World) :
  vsphere.Connect vc w = ((vc1, None), w1) ->
  vsphere.CnsClient vc1 = None ->
  cns.NewClient (vsphere.Client_Client vc1) w1 = ((c, Some e), w2) ->
  ConnectCNS vc w
  = mkOut (Returned (vsphere.set_CnsClient None vc1, Some e)) w2
      [Log Error "Failed to create a new client for CNS. err: %v";
       Log Error "Failed to create CNS client on vCenter host %q with err: %v"].
Proof.
  intros Hconn Hclient Hnew. unfold ConnectCNS, NewCNSClient.
  rewrite (bind_call _ _ _ _ _ Hconn), Hclient. cbn [isnil].
  assert (Hout :
    (do (cnsClient, err) <- call (cns.NewClient (vsphere.Client_Client vc1)) ;;
     match err with
     | Some e0 =>
         klog Error "Failed to create a new client for CNS. err: %v" ;;
         ret (None, Some e0)
     | None => ret (cnsClient, None)
     end) w1
    = mkOut (Returned (None, Some e)) w2
        [Log Error "Failed to create a new client for CNS. err: %v"]).
  { by rewrite (bind_call _ _ _ _ _ Hnew). }
  rewrite (bind_Returned _ _ w1 (None, Some e)) by (by rewrite Hout).
  rewrite Hout. done.
Qed.

(** X20: when [Connect] fails, [ConnectCNS] returns its error and the
    receiver as [Connect] left it; [cns.NewClient] is not called. *)
Theorem ConnectCNS_connect_fails
    (vc vc1 : vsphere.VirtualCenter Vim25 Cns Other)
    (e : error Empty_set) (w w1 : World) :
  vsphere.Connect vc w = ((vc1, Some e), w1) ->
  ConnectCNS vc w
  = mkOut (Returned (vc1, Some e)) w1
      [Log Error "Failed to connect to Virtual Center host %q with err: %v"].
Proof.
  intros Hconn. unfold ConnectCNS.
  by rewrite (bind_call _ _ _ _ _ Hconn).
Qed.

End CnsProperties.

(** ** GetSharedDatastoresInK8SCluster *)

Section ClusterExtras.
Context {World VirtualMachine : Type}.
Context `{!cnsvsphere.VirtualMachineAPI World VirtualMachine}.
Context `{!cnsnode.Manager World VirtualMachine}.

(** X21: when the node manager reports at least one node,
    [GetSharedDatastoresInK8SCluster] returns exactly what
    [GetSharedDatastoresForVMs] returns for the reported nodes, error
    included, and leaves the same world. *)
Theorem GetSharedDatastoresInK8SCluster_is_intersection
    (nodeVMs : list VirtualMachine) (w w1 : World) :
  cnsnode.GetAllNodes w = ((nodeVMs, None), w1) ->
  nodeVMs <> [] ->
  outcome_of (GetSharedDatastoresInK8SCluster w)
  = outcome_of (GetSharedDatastoresForVMs nodeVMs w1)
  ∧ world_of (GetSharedDatastoresInK8SCluster w)
    = world_of (GetSharedDatastoresForVMs nodeVMs w1).
Proof.
  intros Hall Hne. unfold GetSharedDatastoresInK8SCluster.
  rewrite (bind_call _ _ _ _ _ Hall), (nonempty_length _ Hne).
  destruct (range_nodeVMs_shape nodeVMs [] w1)
    as (ds & err & Hout & Herr & _).
  unfold GetSharedDatastoresForVMs in *.
  rewrite (bind_Returned _ _ _ _ Hout), Hout. cbv beta iota.
  destruct err as [e|]; [|done].
  rewrite (Herr (ltac:(by eexists))). done.
Qed.

End ClusterExtras.

(** ** The further properties on the small cluster *)

Module ExtraRuns.
Import Fixture.

Lemma GetSharedDatastoresForVMs_accessor_error_witness :
  returns (GetSharedDatastoresForVMs ["node1"; "ghost"; "node2"])
    (cluster [])
    ([], Some (CollaboratorError "vm not found"))
    (after_calls [] [CallGetAllAccessibleDatastores "node1";
                     CallGetAllAccessibleDatastores "ghost"])
  ∧ GetSharedDatastoresForVMs ["node1"; "ghost"; "node2"] (cluster [])
    = GetSharedDatastoresForVMs ["node1"; "ghost"] (cluster []).
Proof.
  apply (GetSharedDatastoresForVMs_accessor_error
           ["node1"] ["node2"] "ghost"
           [ds "n1-A" "ds:///A/"; ds "n1-B" "ds:///B/"] []
           (CollaboratorError "vm not found")
           (cluster [])
           (after_calls [] [CallGetAllAccessibleDatastores "node1"])).
  - split; reflexivity.
  - reflexivity.
Defined.

Lemma GetSharedDatastoresForVMs_exact_witness :
  exists accessible w1,
    cnsvsphere.GetAllAccessibleDatastores "node1" (cluster [])
    = ((accessible, None), w1)
    ∧ [ds "n1-A" "ds:///A/"]
      = List.filter (reported (accessible_urls ["node2"; "node3"] w1))
          accessible.
Proof.
  apply (GetSharedDatastoresForVMs_exact "node1" ["node2"; "node3"]
           [ds "n1-A" "ds:///A/"] (cluster [])
           (after_calls [] [CallGetAllAccessibleDatastores "node1";
                            CallGetAllAccessibleDatastores "node2";
                            CallGetAllAccessibleDatastores "node3"])).
  split; reflexivity.
Defined.

Lemma GetSharedDatastoresForVMs_success_criterion_witness :
  let common :=
    List.filter
      (reported (Some <$> [["ds:///A/"; "ds:///C/"]; ["ds:///A/"; "ds:///D/"]]))
      [ds "n1-A" "ds:///A/"; ds "n1-B" "ds:///B/"] in
  (common <> [] ->
   outcome_of (GetSharedDatastoresForVMs ["node1"; "node2"; "node3"]
                 (cluster []))
   = Returned (common, None))
  ∧ (common = [] ->
     exists culprit,
       culprit ∈ ["node1"; "node2"; "node3"]
       ∧ outcome_of (GetSharedDatastoresForVMs ["node1"; "node2"; "node3"]
                       (cluster []))
         = Returned ([], Some (NoSharedDatastoresError culprit))).
Proof.
  apply (GetSharedDatastoresForVMs_success_criterion
           "node1" ["node2"; "node3"]
           [ds "n1-A" "ds:///A/"; ds "n1-B" "ds:///B/"]
           [["ds:///A/"; "ds:///C/"]; ["ds:///A/"; "ds:///D/"]]
           (cluster [])
           (after_calls [] [CallGetAllAccessibleDatastores "node1"])).
  - reflexivity.
  - reflexivity.
Defined.


Lemma update_shared_comm_witness :
  update_shared
    (update_shared [ds "n1-A" "ds:///A/"; ds "n1-B" "ds:///B/"]
       [ds "n2-A" "ds:///A/"; ds "n2-C" "ds:///C/"])
    [ds "n5-A" "ds:///A/"; ds "n5-B" "ds:///B/"]
  = update_shared
      (update_shared [ds "n1-A" "ds:///A/"; ds "n1-B" "ds:///B/"]
         [ds "n5-A" "ds:///A/"; ds "n5-B" "ds:///B/"])
      [ds "n2-A" "ds:///A/"; ds "n2-C" "ds:///C/"].
Proof.
  apply (update_shared_comm
           [ds "n1-A" "ds:///A/"; ds "n1-B" "ds:///B/"]
           [ds "n2-A" "ds:///A/"; ds "n2-C" "ds:///C/"]
           [ds "n5-A" "ds:///A/"; ds "n5-B" "ds:///B/"]);
    discriminate.
Defined.

Lemma getNodesInZoneRegion_sublist_witness :
  sublist ["node1"; "node2"] ["node1"; "node3"; "node2"; "node4"].
Proof.
  apply (getNodesInZoneRegion_sublist
           ["node1"; "node3"; "node2"; "node4"] ["node1"; "node2"]
           "k8s-zone" "k8s-region" "us-east" "us" (cluster [])
           (after_calls []
              [CallIsInZoneRegion "node1" "us-east" "us";
               CallIsInZoneRegion "node3" "us-east" "us";
               CallIsInZoneRegion "node2" "us-east" "us";
               CallIsInZoneRegion "node4" "us-east" "us"])).
  split; reflexivity.
Defined.

Lemma getNodesInZoneRegion_stable_witness :
  outcome_of
    (getNodesInZoneRegion ["node1"; "node3"; "node2"]
       "k8s-zone" "k8s-region" "us-east" "" (cluster []))
  = Returned
      (List.filter (fun n => String.eqb n "node1" || String.eqb n "node2")
         ["node1"; "node3"; "node2"], None).
Proof.
  apply (getNodesInZoneRegion_stable ["node1"; "node3"; "node2"]
           (fun n => String.eqb n "node1" || String.eqb n "node2")
           "k8s-zone" "k8s-region" "us-east" "" (cluster [])).
  intros nodeVM Hin w0.
  repeat (apply elem_of_cons in Hin as [->|Hin]; [reflexivity|]).
  by apply elem_of_nil in Hin.
Defined.

Lemma getNodesInZoneRegion_error_witness :
  returns
    (getNodesInZoneRegion ["node1"; "ghost"; "node2"]
       "k8s-zone" "k8s-region" "us-east" "")
    (cluster [])
    ([], Some (CollaboratorError "vm not found"))
    (after_calls [] [CallIsInZoneRegion "node1" "us-east" "";
                     CallIsInZoneRegion "ghost" "us-east" ""])
  ∧ getNodesInZoneRegion ["node1"; "ghost"; "node2"]
      "k8s-zone" "k8s-region" "us-east" "" (cluster [])
    = getNodesInZoneRegion ["node1"; "ghost"]
        "k8s-zone" "k8s-region" "us-east" "" (cluster []).
Proof.
  apply (getNodesInZoneRegion_error ["node1"] ["node2"] ["node1"] "ghost"
           "k8s-zone" "k8s-region" "us-east" "" false
           (CollaboratorError "vm not found") (cluster [])
           (after_calls [] [CallIsInZoneRegion "node1" "us-east" ""])).
  - split; reflexivity.
  - reflexivity.
Defined.

End ExtraRuns.

Module TopologyRuns.
Import Fixture.

Lemma GetSharedDatastoresInTopology_map_matches_sequence_witness :
  length
    (segments_at
       {[ "ds:///X/" := [zone_segment "zone-a"];
          "ds:///Y/" := [zone_segment "zone-a"; zone_segment "zone-b"];
          "ds:///Z/" := [zone_segment "zone-b"] ]}
       "ds:///Y/")
  = occurrences "ds:///Y/"
      [ds "e1-X" "ds:///X/"; ds "e1-Y" "ds:///Y/";
       ds "w1-Y" "ds:///Y/"; ds "w1-Z" "ds:///Z/"]
  ∧ (is_Some
       (({[ "ds:///X/" := [zone_segment "zone-a"];
            "ds:///Y/" := [zone_segment "zone-a"; zone_segment "zone-b"];
            "ds:///Z/" := [zone_segment "zone-b"] ]}
         : gmap string (list (gmap string string))) !! "ds:///Y/")
     <-> "ds:///Y/"
         ∈ urls [ds "e1-X" "ds:///X/"; ds "e1-Y" "ds:///Y/";
                 ds "w1-Y" "ds:///Y/"; ds "w1-Z" "ds:///Z/"]).
Proof.
  apply (GetSharedDatastoresInTopology_map_matches_sequence
           zone_a_zone_b "k8s-zone" "k8s-region"
           (cluster ["east1"; "west1"])
           [ds "e1-X" "ds:///X/"; ds "e1-Y" "ds:///Y/";
            ds "w1-Y" "ds:///Y/"; ds "w1-Z" "ds:///Z/"]
           {[ "ds:///X/" := [zone_segment "zone-a"];
              "ds:///Y/" := [zone_segment "zone-a"; zone_segment "zone-b"];
              "ds:///Z/" := [zone_segment "zone-b"] ]}
           None "ds:///Y/").
  vm_compute. reflexivity.
Defined.

Lemma GetSharedDatastoresInTopology_segments_supplied_witness :
  exists t,
    t ∈ elems (csi.GetPreferred zone_a_zone_b)
        ++ elems (csi.GetRequisite zone_a_zone_b)
    ∧ zone_segment "zone-b" = accessibleTopology (zone_of t) (region_of t).
Proof.
  apply (GetSharedDatastoresInTopology_segments_supplied
           zone_a_zone_b "k8s-zone" "k8s-region"
           (cluster ["east1"; "west1"])
           [ds "e1-X" "ds:///X/"; ds "e1-Y" "ds:///Y/";
            ds "w1-Y" "ds:///Y/"; ds "w1-Z" "ds:///Z/"]
           {[ "ds:///X/" := [zone_segment "zone-a"];
              "ds:///Y/" := [zone_segment "zone-a"; zone_segment "zone-b"];
              "ds:///Z/" := [zone_segment "zone-b"] ]}
           None "ds:///Y/").
  - vm_compute. reflexivity.
  - change (zone_segment "zone-b"
            ∈ [zone_segment "zone-a"; zone_segment "zone-b"]).
    apply list_elem_of_further, list_elem_of_here.
Defined.

Lemma accessibleTopology_entries_witness :
  "us-east" <> ""
  ∧ (("failure-domain.beta.kubernetes.io/zone"
      = csitypes.LabelZoneFailureDomain ∧ "us-east" = "us-east")
     ∨ ("failure-domain.beta.kubernetes.io/zone"
        = csitypes.LabelRegionFailureDomain ∧ "us-east" = "us")).
Proof.
  apply (accessibleTopology_entries "us-east" "us"
           "failure-domain.beta.kubernetes.io/zone" "us-east").
  vm_compute. reflexivity.
Defined.

Lemma GetSharedDatastoresInTopology_fallback_witness :
  returns
    (GetSharedDatastoresInTopology
       (Some {| csi.Requisite := Some [in_zone "us-west"];
                csi.Preferred := Some [in_zone "nowhere"] |})
       "k8s-zone" "k8s-region")
    (cluster ["node1"; "node2"; "node3"])
    ([ds "n3-A" "ds:///A/"; ds "n3-D" "ds:///D/"],
     {[ "ds:///A/" := [zone_segment "us-west"];
        "ds:///D/" := [zone_segment "us-west"] ]},
     None)
    (after_calls ["node1"; "node2"; "node3"]
       [CallGetAllNodes;
        CallIsInZoneRegion "node1" "nowhere" "";
        CallIsInZoneRegion "node2" "nowhere" "";
        CallIsInZoneRegion "node3" "nowhere" "";
        CallIsInZoneRegion "node1" "us-west" "";
        CallIsInZoneRegion "node2" "us-west" "";
        CallIsInZoneRegion "node3" "us-west" "";
        CallGetAllAccessibleDatastores "node3"]).
Proof.
  apply (GetSharedDatastoresInTopology_fallback
           (Some {| csi.Requisite := Some [in_zone "us-west"];
                    csi.Preferred := Some [in_zone "nowhere"] |})
           [in_zone "nowhere"] [in_zone "us-west"]
           ["node1"; "node2"; "node3"] "k8s-zone" "k8s-region" ∅
           {[ "ds:///A/" := [zone_segment "us-west"];
              "ds:///D/" := [zone_segment "us-west"] ]}
           [ds "n3-A" "ds:///A/"; ds "n3-D" "ds:///D/"]
           (cluster ["node1"; "node2"; "node3"])
           (after_calls ["node1"; "node2"; "node3"] [CallGetAllNodes])
           (after_calls ["node1"; "node2"; "node3"]
              [CallGetAllNodes;
               CallIsInZoneRegion "node1" "nowhere" "";
               CallIsInZoneRegion "node2" "nowhere" "";
               CallIsInZoneRegion "node3" "nowhere" ""])).
  - reflexivity.
  - discriminate.
  - reflexivity.
  - reflexivity.
  - split; vm_compute; reflexivity.
  - split; vm_compute; reflexivity.
Defined.

Lemma range_topologyArr_set_fails_witness :
  returns
    (range_topologyArr ["node3"; "node4"] "k8s-zone" "k8s-region"
       [in_zone "us-west"; in_zone "us-east"]
       [ds "n1-A" "ds:///A/"] {[ "ds:///A/" := [zone_segment "us-east"] ]})
    (cluster [])
    ([], ∅, Some (NoSharedDatastoresError "node4"))
    (after_calls []
       [CallIsInZoneRegion "node3" "us-west" "";
        CallIsInZoneRegion "node4" "us-west" "";
        CallGetAllAccessibleDatastores "node3";
        CallGetAllAccessibleDatastores "node4"])
  ∧ range_topologyArr ["node3"; "node4"] "k8s-zone" "k8s-region"
      [in_zone "us-west"; in_zone "us-east"]
      [ds "n1-A" "ds:///A/"] {[ "ds:///A/" := [zone_segment "us-east"] ]}
      (cluster [])
    = range_topologyArr ["node3"; "node4"] "k8s-zone" "k8s-region"
        [in_zone "us-west"] [] ∅ (cluster []).
Proof.
  apply (range_topologyArr_set_fails ["node3"; "node4"] ["node3"; "node4"]
           "k8s-zone" "k8s-region" (in_zone "us-west") [in_zone "us-east"]
           [ds "n1-A" "ds:///A/"] []
           {[ "ds:///A/" := [zone_segment "us-east"] ]}
           (NoSharedDatastoresError "node4") (cluster [])
           (after_calls []
              [CallIsInZoneRegion "node3" "us-west" "";
               CallIsInZoneRegion "node4" "us-west" ""])).
  - split; vm_compute; reflexivity.
  - split; reflexivity.
Defined.

Lemma GetSharedDatastoresInK8SCluster_is_intersection_witness :
  outcome_of (GetSharedDatastoresInK8SCluster (cluster ["node1"; "node2"]))
  = outcome_of
      (GetSharedDatastoresForVMs ["node1"; "node2"]
         (after_calls ["node1"; "node2"] [CallGetAllNodes]))
  ∧ world_of (GetSharedDatastoresInK8SCluster (cluster ["node1"; "node2"]))
    = world_of
        (GetSharedDatastoresForVMs ["node1"; "node2"]
           (after_calls ["node1"; "node2"] [CallGetAllNodes])).
Proof.
  apply (GetSharedDatastoresInK8SCluster_is_intersection
           ["node1"; "node2"] (cluster ["node1"; "node2"])
           (after_calls ["node1"; "node2"] [CallGetAllNodes])).
  - reflexivity.
  - discriminate.
Defined.

End TopologyRuns.

Module VCenterRuns.
Import VCenterFixture.

Lemma ConnectCNS_keeps_client_witness :
  ConnectCNS (vcenter "vc.example" "vim" (Some 7))
    {| created := 8; connects := 0 |}
  = mkOut (Returned (vcenter "vc.example" "vim" (Some 7), None))
      {| created := 8; connects := 1 |} [].
Proof.
  apply (ConnectCNS_keeps_client
           (vcenter "vc.example" "vim" (Some 7))
           (vcenter "vc.example" "vim" (Some 7)) 7
           {| created := 8; connects := 0 |}
           {| created := 8; connects := 1 |}).
  - reflexivity.
  - reflexivity.
Defined.

Lemma ConnectCNS_after_DisconnectCNS_witness :
  returns (ConnectCNS (vcenter "vc.example" "vim" None))
    {| created := 8; connects := 1 |}
    (vsphere.set_CnsClient (Some 8) (vcenter "vc.example" "vim" (Some 7)),
     None)
    {| created := 9; connects := 2 |}.
Proof.
  apply (ConnectCNS_after_DisconnectCNS
           (vcenter "vc.example" "vim" (Some 7))
           (vcenter "vc.example" "vim" None) (Some 8)
           {| created := 8; connects := 1 |}
           {| created := 8; connects := 2 |}
           {| created := 9; connects := 2 |}).
  - reflexivity.
  - reflexivity.
  - reflexivity.
Defined.

Lemma ConnectCNS_creation_fails_witness :
  ConnectCNS (vcenter "vc.example" "" None) {| created := 0; connects := 0 |}
  = mkOut
      (Returned
         (vsphere.set_CnsClient None (vcenter "vc.example" "" None),
          Some (CollaboratorError "no vim25 client")))
      {| created := 0; connects := 1 |}
      [Log Error "Failed to create a new client for CNS. err: %v";
       Log Error "Failed to create CNS client on vCenter host %q with err: %v"].
Proof.
  apply (ConnectCNS_creation_fails
           (vcenter "vc.example" "" None) (vcenter "vc.example" "" None) None
           (CollaboratorError "no vim25 client")
           {| created := 0; connects := 0 |}
           {| created := 0; connects := 1 |}
           {| created := 0; connects := 1 |}).
  - reflexivity.
  - reflexivity.
  - reflexivity.
Defined.

Lemma ConnectCNS_connect_fails_witness :
  ConnectCNS (vcenter "" "vim" None) {| created := 0; connects := 0 |}
  = mkOut
      (Returned (vcenter "" "vim" None, Some (CollaboratorError "no host")))
      {| created := 0; connects := 0 |}
      [Log Error "Failed to connect to Virtual Center host %q with err: %v"].
Proof.
  apply (ConnectCNS_connect_fails
           (vcenter "" "vim" None) (vcenter "" "vim" None)
           (CollaboratorError "no host")
           {| created := 0; connects := 0 |}
           {| created := 0; connects := 0 |}).
  reflexivity.
Defined.

End VCenterRuns.
